(** * Projectile motion: force model and RK4 integrator

    A shallow embedding of [Projectile.h], [Projectile.cpp] and
    [Processing.cpp] of "Project 1: realistic projectile motion", and of
    [Vector3D::normalized] of [src/vector3d.cpp].

    Arithmetic model.  The C++ type [double] is read as the field [R] of real
    numbers: [+], [-], [*], [/], [std::sqrt] and the comparisons are the
    exact ones.  Rounding, overflow, infinities and NaN are outside this
    model.  Division in [R] is total ([a / 0 = 0]); no theorem below uses the
    value of a division by zero unless its statement says so.

    State model.  [rk4Simulation] takes the projectile by reference and
    returns the trajectory by value; here it returns both the final projectile
    and the trajectory.  The [while] loop is a structural recursion on a
    step budget; [None] means that the budget ran out before the loop left. *)

From Stdlib Require Import Reals ZArith Lra Lia List Bool Sorted.
Import ListNotations.

Local Open Scope R_scope.

(** ** Comparisons of [double] values as booleans *)

Definition Rltb (a b : R) : bool := if Rlt_dec a b then true else false.
Definition Rleb (a b : R) : bool := if Rle_dec a b then true else false.
Definition Reqb (a b : R) : bool := if Req_dec_T a b then true else false.

(** ** Vector3D and Vector4D ([Projectile.h]) *)

(** [class Vector3D { double x, y, z; }] *)
Record Vector3D : Type := Vec3 { x : R; y : R; z : R }.

(** [class Vector4D : public Vector3D { double t; }]: the base class
    subobject and the time coordinate. *)
Record Vector4D : Type := Vec4 { xyz : Vector3D; t : R }.

(** [Vector4D(x_, y_, z_, t_) : Vector3D(x_, y_, z_), t(t_)] *)
Definition Vector4D_of (x_ y_ z_ t_ : R) : Vector4D := Vec4 (Vec3 x_ y_ z_) t_.

(** The assignment [new_pos.z = c] on a [Vector4D] lvalue. *)
Definition set_z (p : Vector4D) (c : R) : Vector4D :=
  Vec4 (Vec3 (x (xyz p)) (y (xyz p)) c) (t p).

Declare Scope vec_scope.
Delimit Scope vec_scope with vec.
Bind Scope vec_scope with Vector3D.

(** [Vector3D::operator+] *)
Definition Vector3D_add (a other : Vector3D) : Vector3D :=
  Vec3 (x a + x other) (y a + y other) (z a + z other).

(** [Vector3D::operator-] *)
Definition Vector3D_sub (a other : Vector3D) : Vector3D :=
  Vec3 (x a - x other) (y a - y other) (z a - z other).

(** [Vector3D::operator*(double)] *)
Definition Vector3D_mul (a : Vector3D) (scalar : R) : Vector3D :=
  Vec3 (x a * scalar) (y a * scalar) (z a * scalar).

(** [Vector3D::operator/(double)] *)
Definition Vector3D_div (a : Vector3D) (scalar : R) : Vector3D :=
  Vec3 (x a / scalar) (y a / scalar) (z a / scalar).

Infix "+v" := Vector3D_add (at level 50, left associativity) : vec_scope.
Infix "-v" := Vector3D_sub (at level 50, left associativity) : vec_scope.
Infix "*s" := Vector3D_mul (at level 40, left associativity) : vec_scope.
Infix "/s" := Vector3D_div (at level 40, left associativity) : vec_scope.

Local Open Scope vec_scope.

(** [Vector3D::magnitude] *)
Definition magnitude (a : Vector3D) : R :=
  sqrt (x a * x a + y a * y a + z a * z a).

(** [Vector3D::normalize] of [Projectile.cpp] *)
Definition normalize (a : Vector3D) : Vector3D :=
  let mag := magnitude a in
  if Rltb 0 mag then Vec3 (x a / mag) (y a / mag) (z a / mag)
  else Vec3 0 0 0.

(** [Vector3D::normalized] of [src/vector3d.cpp] *)
Definition normalized (a : Vector3D) : Vector3D :=
  let mag := magnitude a in
  if Reqb mag 0 then Vec3 0 0 0
  else Vec3 (x a / mag) (y a / mag) (z a / mag).

(** [Vector3D::cross] of [src/vector3d.cpp] *)
Definition cross (a other : Vector3D) : Vector3D :=
  Vec3 (y a * z other - z a * y other)
       (z a * x other - x a * z other)
       (x a * y other - y a * x other).

(** ** Projectile ([Projectile.h], [Projectile.cpp]) *)

(** The private members of [class Projectile].  The member [S] is named
    [spinS] here, [S] being the successor of [nat]. *)
Record Projectile : Type := mkProjectile {
  position : Vector4D;
  velocity : Vector3D;
  spin : Vector3D;
  mass : R;
  radius : R;
  dragCoefficient : R;
  airDensity : R;
  spinS : R
}.

(** [static constexpr double GRAVITY = 9.81] *)
Definition GRAVITY : R := 9.81.

(** [M_PI] of [<cmath>] *)
Definition M_PI : R := PI.

(** The parameterized constructor [Projectile::Projectile]. *)
Definition Projectile_new (initialPos : Vector4D) (initialVel initialSpin : Vector3D)
    (m r airDensity_ SOverM dragCoeff : R) : Projectile :=
  {| position := initialPos;
     velocity := initialVel;
     spin := initialSpin;
     mass := m;
     radius := r;
     dragCoefficient := dragCoeff;
     airDensity := airDensity_;
     spinS := SOverM * m |}.

(** [Projectile::setVelocity] *)
Definition setVelocity (p : Projectile) (vel : Vector3D) : Projectile :=
  {| position := position p;
     velocity := vel;
     spin := spin p;
     mass := mass p;
     radius := radius p;
     dragCoefficient := dragCoefficient p;
     airDensity := airDensity p;
     spinS := spinS p |}.

(** [Projectile::move] *)
Definition move (p : Projectile) (pos : Vector4D) (vel : Vector3D) : Projectile :=
  {| position := pos;
     velocity := vel;
     spin := spin p;
     mass := mass p;
     radius := radius p;
     dragCoefficient := dragCoefficient p;
     airDensity := airDensity p;
     spinS := spinS p |}.

Definition getPosition (p : Projectile) : Vector4D := position p.
Definition getVelocity (p : Projectile) : Vector3D := velocity p.
Definition getTime (p : Projectile) : R := t (position p).

(** [Projectile::calculateAcceleration] *)
Definition calculateAcceleration (p : Projectile) (wind : Vector3D) : Vector3D :=
  let gravityForce := Vec3 0 0 (- mass p * GRAVITY) in
  let relativeVelocity := velocity p -v wind in
  let speed := magnitude relativeVelocity in
  let dragForce :=
    if Rltb 0 speed then
      let crossSectionalArea := M_PI * radius p * radius p in
      let dragMagnitude :=
        0.5 * airDensity p * speed * speed * dragCoefficient p * crossSectionalArea in
      let dragDirection := normalize relativeVelocity *s (-1) in
      dragDirection *s dragMagnitude
    else Vec3 0 0 0 in
  let magnusCross :=
    Vec3 (y (spin p) * z relativeVelocity - z (spin p) * y relativeVelocity)
         (z (spin p) * x relativeVelocity - x (spin p) * z relativeVelocity)
         (x (spin p) * y relativeVelocity - y (spin p) * x relativeVelocity) in
  let magnusForce := magnusCross *s spinS p in
  let totalForce := gravityForce +v dragForce +v magnusForce in
  totalForce /s mass p.

(** [Projectile::isGrounded] *)
Definition isGrounded (p : Projectile) : bool :=
  Rleb (z (xyz (position p))) 0 && Rleb (z (velocity p)) 0.

(** ** Trajectory ([Projectile.h]) *)

(** [class Trajectory { std::vector<Vector4D> points; }] *)
Record Trajectory : Type := mkTrajectory { points : list Vector4D }.

(** A default-constructed [Trajectory]. *)
Definition Trajectory_empty : Trajectory := mkTrajectory [].

(** [Trajectory::addPoint]: [points.push_back(point)] *)
Definition addPoint (tr : Trajectory) (point : Vector4D) : Trajectory :=
  mkTrajectory (points tr ++ [point]).

(** [Trajectory::getFinalPoint] *)
Definition getFinalPoint (tr : Trajectory) : Vector4D :=
  match points tr with
  | [] => Vector4D_of 0 0 0 0
  | _ => last (points tr) (Vector4D_of 0 0 0 0)
  end.

(** ** rk4Simulation ([Processing.cpp]) *)

(** The RK4 update of one loop iteration: from "Save current state" to the
    construction of [new_pos]; the result is [(new_pos, new_vel)].  The
    projectile's velocity is overwritten before the second, third and fourth
    evaluation of the acceleration, as in the source. *)
Definition rk4_update (proj : Projectile) (timeStep : R) (wind : Vector3D)
    : Vector4D * Vector3D :=
  let pos0 := getPosition proj in
  let vel0 := getVelocity proj in
  let k1_a := calculateAcceleration proj wind in
  let k1_v := k1_a *s timeStep in
  let k1_x := vel0 *s timeStep in
  let vel_mid1 := vel0 +v k1_v *s 0.5 in
  let proj := setVelocity proj vel_mid1 in
  let k2_a := calculateAcceleration proj wind in
  let k2_v := k2_a *s timeStep in
  let k2_x := vel_mid1 *s timeStep in
  let vel_mid2 := vel0 +v k2_v *s 0.5 in
  let proj := setVelocity proj vel_mid2 in
  let k3_a := calculateAcceleration proj wind in
  let k3_v := k3_a *s timeStep in
  let k3_x := vel_mid2 *s timeStep in
  let vel_end := vel0 +v k3_v in
  let proj := setVelocity proj vel_end in
  let k4_a := calculateAcceleration proj wind in
  let k4_v := k4_a *s timeStep in
  let k4_x := vel_end *s timeStep in
  let new_vel := vel0 +v (k1_v +v k2_v *s 2.0 +v k3_v *s 2.0 +v k4_v) /s 6.0 in
  let delta_r := (k1_x +v k2_x *s 2.0 +v k3_x *s 2.0 +v k4_x) /s 6.0 in
  let new_pos :=
    Vector4D_of (x (xyz pos0) + x delta_r) (y (xyz pos0) + y delta_r)
                (z (xyz pos0) + z delta_r) (t pos0 + timeStep) in
  (new_pos, new_vel).

(** How one execution of the loop body ends: at its closing brace, or at the
    [break] of the ground collision check. *)
Inductive BodyExit : Type :=
| Continue (proj : Projectile) (trajectory : Trajectory)
| Break (proj : Projectile) (trajectory : Trajectory).

(** The body of the [while] loop. *)
Definition rk4_body (proj : Projectile) (timeStep : R) (wind : Vector3D)
    (trajectory : Trajectory) : BodyExit :=
  let '(new_pos, new_vel) := rk4_update proj timeStep wind in
  let proj := move proj new_pos new_vel in
  if Rltb (z (xyz new_pos)) 0 then
    let new_pos := set_z new_pos 0 in
    let stopped_vel := Vec3 0 0 0 in
    let proj := move proj new_pos stopped_vel in
    Break proj trajectory
  else
    Continue proj (addPoint trajectory (getPosition proj)).

(** The loop condition [!proj.isGrounded() && proj.getTime() < maxTime]. *)
Definition loop_condition (proj : Projectile) (maxTime : R) : bool :=
  negb (isGrounded proj) && Rltb (getTime proj) maxTime.

(** The [while] loop, with a budget of iterations. *)
Fixpoint rk4_loop (fuel : nat) (proj : Projectile) (timeStep : R) (wind : Vector3D)
    (maxTime : R) (trajectory : Trajectory) : option (Projectile * Trajectory) :=
  if loop_condition proj maxTime then
    match fuel with
    | O => None
    | S fuel' =>
        match rk4_body proj timeStep wind trajectory with
        | Break proj' trajectory' => Some (proj', trajectory')
        | Continue proj' trajectory' =>
            rk4_loop fuel' proj' timeStep wind maxTime trajectory'
        end
    end
  else Some (proj, trajectory).

(** [rk4Simulation]: the final projectile and the returned trajectory. *)
Definition rk4Simulation (fuel : nat) (proj : Projectile) (timeStep : R)
    (wind : Vector3D) (maxTime : R) : option (Projectile * Trajectory) :=
  let trajectory := addPoint Trajectory_empty (getPosition proj) in
  rk4_loop fuel proj timeStep wind maxTime trajectory.

(** A trace of the run, not a function of the source: the projectiles at the
    head of the loop, one per evaluation of the loop condition, in order: the
    supplied one, then the one left by each iteration that reached
    [addPoint].  They are the states whose positions the trajectory records
    (lemma [rk4Simulation_points]). *)
Fixpoint loop_heads (fuel : nat) (proj : Projectile) (timeStep : R) (wind : Vector3D)
    (maxTime : R) : list Projectile :=
  proj ::
  (if loop_condition proj maxTime then
     match fuel with
     | O => []
     | S fuel' =>
         match rk4_body proj timeStep wind Trajectory_empty with
         | Break _ _ => []
         | Continue proj' _ => loop_heads fuel' proj' timeStep wind maxTime
         end
     end
   else []).

(** ** The presets of [Projectile.h] *)

Definition pingPongBall (initialPos : Vector4D) (initialVel initialSpin : Vector3D)
    : Projectile :=
  Projectile_new initialPos initialVel initialSpin 0.0027 0.02 1.27 0.04 0.5.

Definition perfectProjectile (initialPos : Vector4D) (initialVel initialSpin : Vector3D)
    : Projectile :=
  Projectile_new initialPos initialVel initialSpin 1.0 0.1 0.0 0.0 0.0.

Definition valadationWithoutAirResistance : Projectile :=
  Projectile_new (Vector4D_of 0 0 10 0) (Vec3 15 5 15) (Vec3 0 0 0) 1.0 0.1 0.0 0.0 0.0.

Definition valadationWithMagnusEffect : Projectile :=
  pingPongBall (Vector4D_of 0 0 10 0) (Vec3 15 5 15) (Vec3 (-20) (-40) 20).

(** ** The force model and the RK4 scheme as the specification words them *)

Module Spec.

(** [c * v], the scalar on the left as in [2*k2_v]. *)
Definition scale (c : R) (v : Vector3D) : Vector3D :=
  Vec3 (c * x v) (c * y v) (c * z v).

Definition opposite (v : Vector3D) : Vector3D := scale (-1) v.

(** "a constant downward force of magnitude mass * g (g = 9.81)" *)
Definition gravityForce (m : R) : Vector3D := Vec3 0 0 (- (m * 9.81)).

(** "velocity - wind" *)
Definition relativeVelocity (v w : Vector3D) : Vector3D := v -v w.

(** "0.5 * airDensity * speed^2 * dragCoefficient * (pi * radius^2)" *)
Definition dragMagnitude (rho speed cd r : R) : R :=
  0.5 * rho * speed ^ 2 * cd * (PI * r ^ 2).

(** "if relative speed > 0, ... direction opposite the normalized relative
    velocity.  If relative speed is exactly 0, drag force is the zero
    vector" *)
Definition dragForce (rel : Vector3D) (rho cd r : R) : Vector3D :=
  if Rltb 0 (magnitude rel)
  then scale (dragMagnitude rho (magnitude rel) cd r) (opposite (normalize rel))
  else Vec3 0 0 0.

(** "cross product of spin and relative velocity, scaled by the lift
    coupling factor" *)
Definition magnusForce (omega rel : Vector3D) (s : R) : Vector3D :=
  scale s (cross omega rel).

(** "Net acceleration = (gravity + drag + Magnus) / mass" *)
Definition acceleration (v w omega : Vector3D) (m r cd rho s : R) : Vector3D :=
  let rel := relativeVelocity v w in
  (gravityForce m +v dragForce rel rho cd r +v magnusForce omega rel s) /s m.

Section Scheme.

Variable force : Vector3D -> Vector3D -> Vector3D.
Variables (p0 v0 : Vector3D) (h : R) (w : Vector3D).

Definition k1_a := force v0 w.
Definition k1_v := scale h k1_a.
Definition k1_x := scale h v0.
Definition k2_a := force (v0 +v k1_v /s 2) w.
Definition k2_v := scale h k2_a.
Definition k2_x := scale h (v0 +v k1_v /s 2).
Definition k3_a := force (v0 +v k2_v /s 2) w.
Definition k3_v := scale h k3_a.
Definition k3_x := scale h (v0 +v k2_v /s 2).
Definition k4_a := force (v0 +v k3_v) w.
Definition k4_v := scale h k4_a.
Definition k4_x := scale h (v0 +v k3_v).

Definition new_v : Vector3D :=
  v0 +v (k1_v +v scale 2 k2_v +v scale 2 k3_v +v k4_v) /s 6.
Definition delta_p : Vector3D :=
  (k1_x +v scale 2 k2_x +v scale 2 k3_x +v k4_x) /s 6.
Definition new_p : Vector3D := p0 +v delta_p.

End Scheme.

End Spec.

(** No drag: "dragCoefficient = 0 or airDensity = 0". *)
Definition zero_drag (p : Projectile) : Prop :=
  dragCoefficient p = 0 \/ airDensity p = 0.

(** No Magnus coupling: "spin factor S = 0 or zero spin". *)
Definition zero_magnus (p : Projectile) : Prop :=
  spinS p = 0 \/ spin p = Vec3 0 0 0.

(** The projectile that an execution of the loop body leaves behind, whichever
    way it ends. *)
Definition exit_projectile (e : BodyExit) : Projectile :=
  match e with
  | Continue proj _ => proj
  | Break proj _ => proj
  end.

(** The physical parameters and the spin of [q] are those of [p]. *)
Definition same_parameters (p q : Projectile) : Prop :=
  spin q = spin p /\ mass q = mass p /\ radius q = radius p /\
  dragCoefficient q = dragCoefficient p /\ airDensity q = airDensity p /\
  spinS q = spinS p.

(** "non-positive mass, non-positive time step, non-positive max time" *)
Definition invalid_configuration (proj : Projectile) (timeStep maxTime : R) : Prop :=
  mass proj <= 0 \/ timeStep <= 0 \/ maxTime <= 0.

(** ** Sample projectiles *)

(** Thrown horizontally from a height of one metre. *)
Definition thrown : Projectile :=
  perfectProjectile (Vector4D_of 0 0 1 0) (Vec3 1 0 0) (Vec3 0 0 0).

(** Launched straight up from the ground. *)
Definition launched : Projectile :=
  perfectProjectile (Vector4D_of 0 0 0 0) (Vec3 0 0 10) (Vec3 0 0 0).

(** At rest on the ground. *)
Definition resting : Projectile :=
  perfectProjectile (Vector4D_of 0 0 0 0) (Vec3 0 0 0) (Vec3 0 0 0).

(** [launched] with the mass -1. *)
Definition launched_negative_mass : Projectile :=
  Projectile_new (Vector4D_of 0 0 0 0) (Vec3 0 0 10) (Vec3 0 0 0) (-1) 0.1 0.0 0.0 0.0.

(** ** Further members of [Projectile.cpp] and [src/vector3d.cpp] *)

(** [Vector3D::dot] of [src/vector3d.cpp] *)
Definition dot (a other : Vector3D) : R :=
  x a * x other + y a * y other + z a * z other.

(** [Vector4D::operator+]: the time of the left operand is kept. *)
Definition Vector4D_add (a other : Vector4D) : Vector4D :=
  Vector4D_of (x (xyz a) + x (xyz other)) (y (xyz a) + y (xyz other))
              (z (xyz a) + z (xyz other)) (t a).

(** [Vector4D::operator-] *)
Definition Vector4D_sub (a other : Vector4D) : Vector4D :=
  Vector4D_of (x (xyz a) - x (xyz other)) (y (xyz a) - y (xyz other))
              (z (xyz a) - z (xyz other)) (t a).

(** [Vector4D::operator*(double)] *)
Definition Vector4D_mul (a : Vector4D) (scalar : R) : Vector4D :=
  Vector4D_of (x (xyz a) * scalar) (y (xyz a) * scalar) (z (xyz a) * scalar) (t a).

(** [Vector4D::operator/(double)] *)
Definition Vector4D_div (a : Vector4D) (scalar : R) : Vector4D :=
  Vector4D_of (x (xyz a) / scalar) (y (xyz a) / scalar) (z (xyz a) / scalar) (t a).

(** [Vector4D::spacetimeMagnitude] *)
Definition spacetimeMagnitude (a : Vector4D) : R :=
  sqrt (x (xyz a) * x (xyz a) + y (xyz a) * y (xyz a) + z (xyz a) * z (xyz a)
        - t a * t a).

(** [Vector4D::normalize]; [magnitude()] is the inherited [Vector3D::magnitude]. *)
Definition Vector4D_normalize (a : Vector4D) : Vector4D :=
  let mag := magnitude (xyz a) in
  if Rltb 0 mag
  then Vector4D_of (x (xyz a) / mag) (y (xyz a) / mag) (z (xyz a) / mag) (t a)
  else Vector4D_of 0 0 0 (t a).

(** [Projectile::setPosition] *)
Definition setPosition (p : Projectile) (pos : Vector4D) : Projectile :=
  {| position := pos; velocity := velocity p; spin := spin p; mass := mass p;
     radius := radius p; dragCoefficient := dragCoefficient p;
     airDensity := airDensity p; spinS := spinS p |}.

(** [Projectile::setMass] *)
Definition setMass (p : Projectile) (m : R) : Projectile :=
  {| position := position p; velocity := velocity p; spin := spin p; mass := m;
     radius := radius p; dragCoefficient := dragCoefficient p;
     airDensity := airDensity p; spinS := spinS p |}.

(** [Projectile::setRadius] *)
Definition setRadius (p : Projectile) (r : R) : Projectile :=
  {| position := position p; velocity := velocity p; spin := spin p; mass := mass p;
     radius := r; dragCoefficient := dragCoefficient p;
     airDensity := airDensity p; spinS := spinS p |}.

(** [Projectile::setDragCoefficient] *)
Definition setDragCoefficient (p : Projectile) (cd : R) : Projectile :=
  {| position := position p; velocity := velocity p; spin := spin p; mass := mass p;
     radius := radius p; dragCoefficient := cd;
     airDensity := airDensity p; spinS := spinS p |}.

(** [Projectile::setSpin] *)
Definition setSpin (p : Projectile) (spinVec : Vector3D) : Projectile :=
  {| position := position p; velocity := velocity p; spin := spinVec; mass := mass p;
     radius := radius p; dragCoefficient := dragCoefficient p;
     airDensity := airDensity p; spinS := spinS p |}.

(** [Projectile::setAirDensity] *)
Definition setAirDensity (p : Projectile) (density : R) : Projectile :=
  {| position := position p; velocity := velocity p; spin := spin p; mass := mass p;
     radius := radius p; dragCoefficient := dragCoefficient p;
     airDensity := density; spinS := spinS p |}.

(** [Projectile::setS]: [S = SOverM * mass], with the mass of the moment. *)
Definition setS (p : Projectile) (SOverM : R) : Projectile :=
  {| position := position p; velocity := velocity p; spin := spin p; mass := mass p;
     radius := radius p; dragCoefficient := dragCoefficient p;
     airDensity := airDensity p; spinS := SOverM * mass p |}.

(** [Projectile::setAll] *)
Definition setAll (p : Projectile) (pos : Vector4D) (vel spinVec : Vector3D)
    (m r density SOverM dragCoeff : R) : Projectile :=
  {| position := pos; velocity := vel; spin := spinVec; mass := m; radius := r;
     dragCoefficient := dragCoeff; airDensity := density; spinS := SOverM * m |}.

(** [Projectile::getSpeed], [getHeight], [getRange] *)
Definition getSpeed (p : Projectile) : R := magnitude (velocity p).
Definition getHeight (p : Projectile) : R := z (xyz (position p)).
Definition getRange (p : Projectile) : R :=
  sqrt (x (xyz (position p)) * x (xyz (position p))
        + y (xyz (position p)) * y (xyz (position p))).

(** [Trajectory::getPoints] *)
Definition getPoints (tr : Trajectory) : list Vector4D := points tr.

(** ** Reference quantities for the properties of runs *)

(** The parabola of free flight from the state of [p], after the time [tau]. *)
Definition ballistic_position (p : Projectile) (tau : R) : Vector4D :=
  Vector4D_of
    (x (xyz (position p)) + x (velocity p) * tau)
    (y (xyz (position p)) + y (velocity p) * tau)
    (z (xyz (position p)) + z (velocity p) * tau - GRAVITY * tau * tau / 2)
    (t (position p) + tau).

Definition ballistic_velocity (p : Projectile) (tau : R) : Vector3D :=
  Vec3 (x (velocity p)) (y (velocity p)) (z (velocity p) - GRAVITY * tau).

(** Kinetic plus potential energy, per unit of mass. *)
Definition specific_energy (p : Projectile) : R :=
  dot (velocity p) (velocity p) / 2 + GRAVITY * z (xyz (position p)).

(** A point moved by [dx], [dy] in the horizontal plane and by [dt] in time. *)
Definition shift (dx dy dt : R) (s : Vector4D) : Vector4D :=
  Vector4D_of (x (xyz s) + dx) (y (xyz s) + dy) (z (xyz s)) (t s + dt).

(** The projectile [p] with its position moved by [shift]. *)
Definition shifted (dx dy dt : R) (p : Projectile) : Projectile :=
  setPosition p (shift dx dy dt (position p)).

(** The trajectory with every point moved by [shift]. *)
Definition shift_trajectory (dx dy dt : R) (tr : Trajectory) : Trajectory :=
  mkTrajectory (map (shift dx dy dt) (points tr)).

(** ** The generic integrator of Project 2 ([processing.cpp])

    [state_type] is [std::vector<double>].  The two callbacks are parameters:
    [derivatives (state, k, time)] gives the contents of the buffer [k] after
    the call, from the state, the contents of [k] before the call and the
    time argument; the loop runs while [stopCondition] holds.  An element
    [v[i]] is [nth i v 0]; reading past the end of a buffer that a callback
    has shortened is undefined in the C++, and the properties below assume
    that the callback keeps the size of the buffer. *)

Module Oscillations.

Definition state_type : Type := list R.

(** [state[i] + c * k[i]] for [i] from 0 to [state.size() - 1] *)
Definition advance (state k : state_type) (c : R) : state_type :=
  map (fun i => nth i state 0 + c * nth i k 0) (seq 0 (length state)).

(** The buffers [k1], [k2], [k3], [k4], allocated once before the loop. *)
Record Buffers : Type := mkBuffers {
  k1 : state_type; k2 : state_type; k3 : state_type; k4 : state_type
}.

(** Every buffer has [n] elements. *)
Definition sized (n : nat) (b : Buffers) : Prop :=
  length (k1 b) = n /\ length (k2 b) = n /\ length (k3 b) = n /\ length (k4 b) = n.

Section Integrator.

Variable derivatives : state_type -> state_type -> R -> state_type.
Variable stopCondition : state_type -> bool.
Variable timeStep : R.

(** The body of the [while] loop, up to the update of [state]. *)
Definition rk4_step (state : state_type) (b : Buffers) : state_type * Buffers :=
  let k1 := derivatives state (k1 b) 0.0 in
  let tempState := advance state k1 (0.5 * timeStep) in
  let k2 := derivatives tempState (k2 b) (0.5 * timeStep) in
  let tempState := advance state k2 (0.5 * timeStep) in
  let k3 := derivatives tempState (k3 b) (0.5 * timeStep) in
  let tempState := advance state k3 timeStep in
  let k4 := derivatives tempState (k4 b) timeStep in
  let state :=
    map (fun i => nth i state 0 +
                  (timeStep / 6.0) *
                  (nth i k1 0 + 2.0 * nth i k2 0 + 2.0 * nth i k3 0 + nth i k4 0))
        (seq 0 (length state)) in
  (state, mkBuffers k1 k2 k3 k4).

(** The [while] loop, with a budget of iterations. *)
Fixpoint rk4_while (fuel : nat) (state : state_type) (b : Buffers)
    (trajectory : list state_type) : option (state_type * list state_type) :=
  if stopCondition state then
    match fuel with
    | O => None
    | S fuel' =>
        let '(state', b') := rk4_step state b in
        rk4_while fuel' state' b' (trajectory ++ [state'])
    end
  else Some (state, trajectory).

(** [rk4Simulation]: the final state and the returned trajectory. *)
Definition rk4Simulation (fuel : nat) (state : state_type)
    : option (state_type * list state_type) :=
  let zeros := repeat 0 (length state) in
  rk4_while fuel state (mkBuffers zeros zeros zeros zeros) [state].

End Integrator.

(** The stop condition of [main.cpp]: continue while [state[0] < 180.0]. *)
Definition main_stopCondition (state : state_type) : bool := Rltb (nth 0 state 0) 180.0.

(** A callback that writes 1 into the first element of the buffer and the
    negated first element of the state into the others. *)
Definition sample_derivatives (state k : state_type) (time : R) : state_type :=
  match k with
  | [] => []
  | _ :: rest => 1 :: map (fun _ => - nth 0 state 0) rest
  end.

End Oscillations.

(** [valadationWithAirResistance] of [Projectile.h] *)
Definition valadationWithAirResistance : Projectile :=
  pingPongBall (Vector4D_of 0 0 10 0) (Vec3 15 5 15) (Vec3 0 0 0).

(** * Properties *)

(** ** Comparisons *)

Lemma Rltb_true (a b : R) : Rltb a b = true <-> a < b.
Proof. unfold Rltb. destruct (Rlt_dec a b); split; intros; try easy; lra. Qed.

Lemma Rltb_false (a b : R) : Rltb a b = false <-> b <= a.
Proof. unfold Rltb. destruct (Rlt_dec a b); split; intros; try easy; lra. Qed.

Lemma Rleb_true (a b : R) : Rleb a b = true <-> a <= b.
Proof. unfold Rleb. destruct (Rle_dec a b); split; intros; try easy; lra. Qed.

Lemma Rleb_false (a b : R) : Rleb a b = false <-> b < a.
Proof. unfold Rleb. destruct (Rle_dec a b); split; intros; try easy; lra. Qed.

Lemma Reqb_true (a b : R) : Reqb a b = true <-> a = b.
Proof. unfold Reqb. destruct (Req_dec_T a b); split; intros; try easy. Qed.

Lemma Reqb_false (a b : R) : Reqb a b = false <-> a <> b.
Proof. unfold Reqb. destruct (Req_dec_T a b); split; intros; try easy. Qed.

(** Settles the comparisons of the goal that linear arithmetic decides. *)
Ltac Rcompare :=
  repeat match goal with
  | |- context [Rltb ?a ?b] =>
      first [ rewrite (proj2 (Rltb_true a b)) by lra
            | rewrite (proj2 (Rltb_false a b)) by lra ]
  | |- context [Rleb ?a ?b] =>
      first [ rewrite (proj2 (Rleb_true a b)) by lra
            | rewrite (proj2 (Rleb_false a b)) by lra ]
  | |- context [Reqb ?a ?b] =>
      first [ rewrite (proj2 (Reqb_true a b)) by lra
            | rewrite (proj2 (Reqb_false a b)) by lra ]
  end.

(** ** Vector algebra *)

Lemma Vector3D_eq (a b : Vector3D) :
  x a = x b -> y a = y b -> z a = z b -> a = b.
Proof. destruct a, b; simpl; intros; subst; reflexivity. Qed.

Lemma magnitude_nonneg (a : Vector3D) : 0 <= magnitude a.
Proof. apply sqrt_pos. Qed.

Lemma sum_squares_nonneg (a b c : R) : 0 <= a * a + b * b + c * c.
Proof. nra. Qed.

Lemma magnitude_square (a : Vector3D) :
  magnitude a * magnitude a = x a * x a + y a * y a + z a * z a.
Proof. unfold magnitude. apply sqrt_sqrt, sum_squares_nonneg. Qed.

Lemma magnitude_zero_vector : magnitude (Vec3 0 0 0) = 0.
Proof.
  unfold magnitude; simpl.
  replace (0 * 0 + 0 * 0 + 0 * 0) with 0 by ring.
  apply sqrt_0.
Qed.

Lemma magnitude_zero_inv (a : Vector3D) : magnitude a = 0 -> a = Vec3 0 0 0.
Proof.
  intros H. pose proof (magnitude_square a) as Hsq. rewrite H in Hsq.
  apply Vector3D_eq; simpl; nra.
Qed.

Lemma normalize_positive (a : Vector3D) :
  0 < magnitude a ->
  normalize a = Vec3 (x a / magnitude a) (y a / magnitude a) (z a / magnitude a).
Proof. intros H. unfold normalize. now Rcompare. Qed.

Lemma normalize_not_positive (a : Vector3D) :
  magnitude a <= 0 -> normalize a = Vec3 0 0 0.
Proof. intros H. unfold normalize. now Rcompare. Qed.

Lemma normalized_positive (a : Vector3D) :
  0 < magnitude a ->
  normalized a = Vec3 (x a / magnitude a) (y a / magnitude a) (z a / magnitude a).
Proof. intros H. unfold normalized. now Rcompare. Qed.

Lemma normalized_zero (a : Vector3D) :
  magnitude a = 0 -> normalized a = Vec3 0 0 0.
Proof. intros H. unfold normalized. now Rcompare. Qed.

Lemma magnitude_quotient (a : Vector3D) :
  0 < magnitude a ->
  magnitude (Vec3 (x a / magnitude a) (y a / magnitude a) (z a / magnitude a)) = 1.
Proof.
  intros H. pose proof (magnitude_square a) as Hsq.
  unfold magnitude at 1; simpl.
  replace (x a / magnitude a * (x a / magnitude a) +
           y a / magnitude a * (y a / magnitude a) +
           z a / magnitude a * (z a / magnitude a)) with 1.
  - apply sqrt_1.
  - transitivity ((x a * x a + y a * y a + z a * z a) / (magnitude a * magnitude a)).
    + rewrite <- Hsq. field. lra.
    + field. lra.
Qed.

Lemma quotient_scaled_back (a : Vector3D) :
  0 < magnitude a ->
  Vec3 (x a / magnitude a) (y a / magnitude a) (z a / magnitude a) *s magnitude a = a.
Proof.
  intros H. apply Vector3D_eq; simpl; field; lra.
Qed.


(** ** The force model *)

Lemma Vector3D_eta (a : Vector3D) : Vec3 (x a) (y a) (z a) = a.
Proof. now destruct a. Qed.

Lemma calculateAcceleration_unfold (p : Projectile) (wind : Vector3D) :
  calculateAcceleration p wind =
  (Vec3 0 0 (- mass p * GRAVITY)
   +v (if Rltb 0 (magnitude (velocity p -v wind))
       then normalize (velocity p -v wind) *s (-1) *s
              (0.5 * airDensity p * magnitude (velocity p -v wind) *
               magnitude (velocity p -v wind) * dragCoefficient p *
               (M_PI * radius p * radius p))
       else Vec3 0 0 0)
   +v cross (spin p) (velocity p -v wind) *s spinS p) /s mass p.
Proof. reflexivity. Qed.

Lemma magnitude_scale (c : R) (v : Vector3D) :
  0 <= c -> magnitude (Spec.scale c v) = c * magnitude v.
Proof.
  intros Hc. unfold magnitude, Spec.scale; simpl.
  replace (c * x v * (c * x v) + c * y v * (c * y v) + c * z v * (c * z v))
    with ((c * c) * (x v * x v + y v * y v + z v * z v)) by ring.
  rewrite sqrt_mult_alt by nra.
  now rewrite sqrt_square.
Qed.

Lemma magnitude_opposite (v : Vector3D) :
  magnitude (Spec.opposite v) = magnitude v.
Proof.
  unfold magnitude, Spec.opposite, Spec.scale; simpl. f_equal. ring.
Qed.



(** ** One RK4 step *)

Lemma setVelocity_twice (p : Projectile) (a b : Vector3D) :
  setVelocity (setVelocity p a) b = setVelocity p b.
Proof. reflexivity. Qed.

Lemma setVelocity_same (p : Projectile) : setVelocity p (velocity p) = p.
Proof. now destruct p. Qed.

Lemma mul_scale (a : Vector3D) (c : R) : a *s c = Spec.scale c a.
Proof. apply Vector3D_eq; simpl; ring. Qed.

Lemma scale_half (a : Vector3D) : Spec.scale 0.5 a = a /s 2.
Proof. apply Vector3D_eq; simpl; lra. Qed.

Lemma two_literal : 2.0 = 2.
Proof. lra. Qed.

Lemma six_literal : 6.0 = 6.
Proof. lra. Qed.


(** ** Flight without drag and without Magnus force *)

Lemma calculateAcceleration_ballistic (p : Projectile) (wind : Vector3D) :
  zero_drag p -> zero_magnus p -> mass p <> 0 ->
  calculateAcceleration p wind = Vec3 0 0 (- GRAVITY).
Proof.
  intros Hd Hm Hmass. rewrite calculateAcceleration_unfold.
  assert (Hdrag :
    (if Rltb 0 (magnitude (velocity p -v wind))
     then normalize (velocity p -v wind) *s (-1) *s
            (0.5 * airDensity p * magnitude (velocity p -v wind) *
             magnitude (velocity p -v wind) * dragCoefficient p *
             (M_PI * radius p * radius p))
     else Vec3 0 0 0) = Vec3 0 0 0).
  { destruct (Rltb 0 (magnitude (velocity p -v wind))); [|reflexivity].
    destruct Hd as [Hd | Hd]; rewrite Hd; apply Vector3D_eq; simpl; ring. }
  assert (Hmagnus : cross (spin p) (velocity p -v wind) *s spinS p = Vec3 0 0 0).
  { destruct Hm as [Hm | Hm]; rewrite Hm; apply Vector3D_eq; simpl; ring. }
  rewrite Hdrag, Hmagnus.
  apply Vector3D_eq; simpl; field; exact Hmass.
Qed.

Lemma rk4_update_ballistic (proj : Projectile) (timeStep : R) (wind : Vector3D) :
  zero_drag proj -> zero_magnus proj -> mass proj <> 0 ->
  rk4_update proj timeStep wind =
  (Vector4D_of
     (x (xyz (position proj)) + x (velocity proj) * timeStep)
     (y (xyz (position proj)) + y (velocity proj) * timeStep)
     (z (xyz (position proj)) + z (velocity proj) * timeStep
        - GRAVITY * timeStep * timeStep / 2)
     (t (position proj) + timeStep),
   Vec3 (x (velocity proj)) (y (velocity proj))
        (z (velocity proj) - GRAVITY * timeStep)).
Proof.
  intros Hd Hm Hmass.
  assert (Hacc : forall v, calculateAcceleration (setVelocity proj v) wind
                           = Vec3 0 0 (- GRAVITY)).
  { intros v. now apply calculateAcceleration_ballistic. }
  unfold rk4_update, getPosition, getVelocity. cbv zeta.
  rewrite !setVelocity_twice, !Hacc.
  rewrite (calculateAcceleration_ballistic proj wind Hd Hm Hmass).
  unfold Vector4D_of.
  apply f_equal2; [apply f_equal2; [|reflexivity] |];
    apply Vector3D_eq; simpl; lra.
Qed.

(** ** The loop *)

Lemma rk4_body_trajectory (proj : Projectile) (timeStep : R) (wind : Vector3D)
    (trajectory : Trajectory) :
  rk4_body proj timeStep wind trajectory =
  match rk4_body proj timeStep wind Trajectory_empty with
  | Continue proj' _ => Continue proj' (addPoint trajectory (getPosition proj'))
  | Break proj' _ => Break proj' trajectory
  end.
Proof.
  unfold rk4_body. destruct (rk4_update proj timeStep wind) as [new_pos new_vel].
  destruct (Rltb (z (xyz new_pos)) 0); reflexivity.
Qed.

Lemma rk4_body_time (proj : Projectile) (timeStep : R) (wind : Vector3D)
    (trajectory : Trajectory) :
  getTime (exit_projectile (rk4_body proj timeStep wind trajectory))
  = getTime proj + timeStep.
Proof.
  unfold rk4_body, rk4_update. cbv zeta.
  match goal with |- context [Rltb ?a 0] => destruct (Rltb a 0) end; reflexivity.
Qed.

Lemma rk4_body_break_grounded (proj proj' : Projectile) (timeStep : R)
    (wind : Vector3D) (trajectory trajectory' : Trajectory) :
  rk4_body proj timeStep wind trajectory = Break proj' trajectory' ->
  isGrounded proj' = true /\ z (xyz (position proj')) = 0 /\
  velocity proj' = Vec3 0 0 0 /\ trajectory' = trajectory.
Proof.
  unfold rk4_body. destruct (rk4_update proj timeStep wind) as [new_pos new_vel].
  destruct (Rltb (z (xyz new_pos)) 0); [|discriminate].
  intros H. injection H as <- <-. unfold isGrounded; simpl.
  repeat split. now Rcompare.
Qed.

Lemma rk4_loop_unfold (fuel : nat) (proj : Projectile) (timeStep : R)
    (wind : Vector3D) (maxTime : R) (trajectory : Trajectory) :
  rk4_loop fuel proj timeStep wind maxTime trajectory =
  if loop_condition proj maxTime then
    match fuel with
    | O => None
    | S fuel' =>
        match rk4_body proj timeStep wind trajectory with
        | Break proj' trajectory' => Some (proj', trajectory')
        | Continue proj' trajectory' =>
            rk4_loop fuel' proj' timeStep wind maxTime trajectory'
        end
    end
  else Some (proj, trajectory).
Proof. destruct fuel; reflexivity. Qed.

Lemma loop_heads_unfold (fuel : nat) (proj : Projectile) (timeStep : R)
    (wind : Vector3D) (maxTime : R) :
  loop_heads fuel proj timeStep wind maxTime =
  proj ::
  (if loop_condition proj maxTime then
     match fuel with
     | O => []
     | S fuel' =>
         match rk4_body proj timeStep wind Trajectory_empty with
         | Break _ _ => []
         | Continue proj' _ => loop_heads fuel' proj' timeStep wind maxTime
         end
     end
   else []).
Proof. destruct fuel; reflexivity. Qed.

Lemma loop_condition_true (proj : Projectile) (maxTime : R) :
  loop_condition proj maxTime = true <->
  isGrounded proj = false /\ getTime proj < maxTime.
Proof.
  unfold loop_condition. rewrite andb_true_iff, negb_true_iff, Rltb_true. tauto.
Qed.

Lemma loop_condition_false (proj : Projectile) (maxTime : R) :
  loop_condition proj maxTime = false <->
  isGrounded proj = true \/ maxTime <= getTime proj.
Proof.
  unfold loop_condition. rewrite andb_false_iff, negb_false_iff, Rltb_false. tauto.
Qed.

Lemma isGrounded_true (p : Projectile) :
  isGrounded p = true <-> z (xyz (position p)) <= 0 /\ z (velocity p) <= 0.
Proof.
  unfold isGrounded. now rewrite andb_true_iff, !Rleb_true.
Qed.

Lemma isGrounded_false (p : Projectile) :
  isGrounded p = false <-> 0 < z (xyz (position p)) \/ 0 < z (velocity p).
Proof.
  unfold isGrounded. now rewrite andb_false_iff, !Rleb_false.
Qed.

(** More budget does not change the result of a loop that left. *)
Lemma rk4_loop_fuel_mono (fuel : nat) :
  forall fuel' proj timeStep wind maxTime trajectory r,
    rk4_loop fuel proj timeStep wind maxTime trajectory = Some r ->
    (fuel <= fuel')%nat ->
    rk4_loop fuel' proj timeStep wind maxTime trajectory = Some r.
Proof.
  induction fuel as [|fuel IH]; intros fuel' proj timeStep wind maxTime trajectory r H Hle.
  - rewrite rk4_loop_unfold in H |- *.
    destruct (loop_condition proj maxTime); [discriminate | exact H].
  - destruct fuel' as [|fuel']; [lia|].
    rewrite rk4_loop_unfold in H |- *.
    destruct (loop_condition proj maxTime); [|exact H].
    destruct (rk4_body proj timeStep wind trajectory) as [p' tr' | p' tr']; [|exact H].
    apply IH; [exact H | lia].
Qed.

(** The trajectory gains the positions of the loop heads after the first. *)
Lemma rk4_loop_points (fuel : nat) :
  forall proj timeStep wind maxTime trajectory proj' trajectory',
    rk4_loop fuel proj timeStep wind maxTime trajectory = Some (proj', trajectory') ->
    points trajectory' =
    points trajectory ++
    map getPosition (tl (loop_heads fuel proj timeStep wind maxTime)).
Proof.
  induction fuel as [|fuel IH]; intros proj timeStep wind maxTime trajectory proj' trajectory' H;
    rewrite rk4_loop_unfold in H; rewrite loop_heads_unfold; simpl tl;
    destruct (loop_condition proj maxTime).
  - discriminate.
  - injection H as <- <-. simpl. now rewrite app_nil_r.
  - rewrite rk4_body_trajectory in H.
    destruct (rk4_body proj timeStep wind Trajectory_empty) as [q tr | q tr].
    + apply IH in H. rewrite H. simpl points. rewrite <- app_assoc. simpl.
      f_equal. f_equal.
      rewrite loop_heads_unfold. reflexivity.
    + injection H as <- <-. simpl. now rewrite app_nil_r.
  - injection H as <- <-. simpl. now rewrite app_nil_r.
Qed.

Lemma rk4Simulation_points (fuel : nat) (proj : Projectile) (timeStep : R)
    (wind : Vector3D) (maxTime : R) (proj' : Projectile) (trajectory : Trajectory) :
  rk4Simulation fuel proj timeStep wind maxTime = Some (proj', trajectory) ->
  points trajectory = map getPosition (loop_heads fuel proj timeStep wind maxTime).
Proof.
  unfold rk4Simulation. intros H. apply rk4_loop_points in H. rewrite H.
  rewrite (loop_heads_unfold fuel). reflexivity.
Qed.

(** ** Ground contact *)

(** C10: [isGrounded] holds exactly when position.z <= 0 and velocity.z <= 0;
    so a projectile at or below the ground that moves upward is not grounded,
    and while its time is below the max time the loop runs its body on it. *)
Theorem isGrounded_iff (p : Projectile) :
  (isGrounded p = true <-> z (xyz (position p)) <= 0 /\ z (velocity p) <= 0) /\
  (z (xyz (position p)) <= 0 -> 0 < z (velocity p) ->
   isGrounded p = false /\
   forall fuel timeStep wind maxTime trajectory,
     getTime p < maxTime ->
     loop_condition p maxTime = true /\
     rk4_loop (S fuel) p timeStep wind maxTime trajectory =
     match rk4_body p timeStep wind trajectory with
     | Break proj' trajectory' => Some (proj', trajectory')
     | Continue proj' trajectory' =>
         rk4_loop fuel proj' timeStep wind maxTime trajectory'
     end).
Proof.
  split; [apply isGrounded_true|].
  intros Hz Hv.
  assert (Hg : isGrounded p = false) by (apply isGrounded_false; now right).
  split; [exact Hg|].
  intros fuel timeStep wind maxTime trajectory Ht.
  assert (Hc : loop_condition p maxTime = true) by now apply loop_condition_true.
  split; [exact Hc|].
  rewrite rk4_loop_unfold, Hc. reflexivity.
Qed.

Lemma isGrounded_iff_witness :
  z (xyz (position launched)) <= 0 /\ 0 < z (velocity launched) /\
  isGrounded launched = false /\
  loop_condition launched 1 = true.
Proof.
  assert (Hz : z (xyz (position launched)) <= 0) by (simpl; lra).
  assert (Hv : 0 < z (velocity launched)) by (simpl; lra).
  assert (Ht : getTime launched < 1) by (unfold getTime; simpl; lra).
  split; [exact Hz|]. split; [exact Hv|].
  destruct (proj2 (isGrounded_iff launched) Hz Hv) as [Hg Hloop].
  split; [exact Hg|].
  exact (proj1 (Hloop O 1 (Vec3 0 0 0) 1 Trajectory_empty Ht)).
Defined.

(** C5, as the code has it: when the initial position has z <= 0 and the
    initial velocity has z <= 0, the run is valid and returns at once, for
    every budget, time step, wind and max time: the projectile is grounded and
    unchanged, no iteration of the loop runs, and the trajectory holds the
    initial sample alone, which is its first and its final sample. *)
Theorem grounded_start_returns_at_once (fuel : nat) (proj : Projectile)
    (timeStep : R) (wind : Vector3D) (maxTime : R) :
  z (xyz (position proj)) <= 0 -> z (velocity proj) <= 0 ->
  isGrounded proj = true /\
  rk4Simulation fuel proj timeStep wind maxTime =
    Some (proj, mkTrajectory [getPosition proj]) /\
  loop_heads fuel proj timeStep wind maxTime = [proj] /\
  hd_error [getPosition proj] = Some (getPosition proj) /\
  getFinalPoint (mkTrajectory [getPosition proj]) = getPosition proj.
Proof.
  intros Hz Hv.
  assert (Hg : isGrounded proj = true) by now apply isGrounded_true.
  assert (Hc : loop_condition proj maxTime = false)
    by (apply loop_condition_false; now left).
  split; [exact Hg|]. split; [|split; [|split; reflexivity]].
  - unfold rk4Simulation. rewrite rk4_loop_unfold, Hc. reflexivity.
  - rewrite loop_heads_unfold, Hc. reflexivity.
Qed.

Lemma grounded_start_returns_at_once_witness :
  z (xyz (position resting)) <= 0 /\ z (velocity resting) <= 0 /\
  rk4Simulation 0 resting 0.001 (Vec3 0 0 0) 10 =
    Some (resting, mkTrajectory [getPosition resting]).
Proof.
  assert (Hz : z (xyz (position resting)) <= 0) by (simpl; lra).
  assert (Hv : z (velocity resting) <= 0) by (simpl; lra).
  split; [exact Hz|]. split; [exact Hv|].
  exact (proj1 (proj2
    (grounded_start_returns_at_once 0 resting 0.001 (Vec3 0 0 0) 10 Hz Hv))).
Defined.

Lemma perfectProjectile_zero_drag (pos : Vector4D) (vel omega : Vector3D) :
  zero_drag (perfectProjectile pos vel omega).
Proof. left. simpl. lra. Qed.

Lemma perfectProjectile_zero_magnus (pos : Vector4D) (vel omega : Vector3D) :
  zero_magnus (perfectProjectile pos vel omega).
Proof. left. simpl. lra. Qed.

Lemma perfectProjectile_mass (pos : Vector4D) (vel omega : Vector3D) :
  mass (perfectProjectile pos vel omega) <> 0.
Proof. simpl. lra. Qed.

Lemma Vector4D_of_eq (a b c d a' b' c' d' : R) :
  a = a' -> b = b' -> c = c' -> d = d' ->
  Vector4D_of a b c d = Vector4D_of a' b' c' d'.
Proof. now intros -> -> -> ->. Qed.

Lemma Vec3_eq (a b c a' b' c' : R) :
  a = a' -> b = b' -> c = c' -> Vec3 a b c = Vec3 a' b' c'.
Proof. now intros -> -> ->. Qed.

Lemma move_twice (p : Projectile) (pos pos' : Vector4D) (vel vel' : Vector3D) :
  move (move p pos vel) pos' vel' = move p pos' vel'.
Proof. reflexivity. Qed.

(** The loop body in flight without drag and Magnus force, when the new
    height is not negative. *)
Lemma rk4_body_ballistic_continue (proj : Projectile) (timeStep : R)
    (wind : Vector3D) (trajectory : Trajectory) (pos : Vector4D) (vel : Vector3D) :
  zero_drag proj -> zero_magnus proj -> mass proj <> 0 ->
  0 <= z (xyz (position proj)) + z (velocity proj) * timeStep
       - GRAVITY * timeStep * timeStep / 2 ->
  pos = Vector4D_of
          (x (xyz (position proj)) + x (velocity proj) * timeStep)
          (y (xyz (position proj)) + y (velocity proj) * timeStep)
          (z (xyz (position proj)) + z (velocity proj) * timeStep
             - GRAVITY * timeStep * timeStep / 2)
          (t (position proj) + timeStep) ->
  vel = Vec3 (x (velocity proj)) (y (velocity proj))
             (z (velocity proj) - GRAVITY * timeStep) ->
  rk4_body proj timeStep wind trajectory =
  Continue (move proj pos vel) (addPoint trajectory pos).
Proof.
  intros Hd Hm Hmass Hz -> ->. unfold rk4_body.
  rewrite rk4_update_ballistic by assumption. simpl xyz. simpl z at 1.
  now Rcompare.
Qed.

(** The loop body in flight without drag and Magnus force, when the new
    height is negative. *)
Lemma rk4_body_ballistic_break (proj : Projectile) (timeStep : R)
    (wind : Vector3D) (trajectory : Trajectory) (pos : Vector4D) :
  zero_drag proj -> zero_magnus proj -> mass proj <> 0 ->
  z (xyz (position proj)) + z (velocity proj) * timeStep
    - GRAVITY * timeStep * timeStep / 2 < 0 ->
  pos = Vector4D_of
          (x (xyz (position proj)) + x (velocity proj) * timeStep)
          (y (xyz (position proj)) + y (velocity proj) * timeStep)
          0
          (t (position proj) + timeStep) ->
  rk4_body proj timeStep wind trajectory =
  Break (move proj pos (Vec3 0 0 0)) trajectory.
Proof.
  intros Hd Hm Hmass Hz ->. unfold rk4_body.
  rewrite rk4_update_ballistic by assumption. simpl xyz. simpl z at 1.
  now Rcompare.
Qed.

(** The run of [launched] with time step 1 and max time 1: one step is
    integrated and recorded, and the projectile is in flight at the end. *)
Lemma launched_run (fuel : nat) :
  rk4Simulation (S fuel) launched 1 (Vec3 0 0 0) 1 =
  Some (move launched (Vector4D_of 0 0 5.095 1) (Vec3 0 0 0.19),
        mkTrajectory [Vector4D_of 0 0 0 0; Vector4D_of 0 0 5.095 1]).
Proof.
  unfold rk4Simulation. rewrite rk4_loop_unfold.
  assert (Hc : loop_condition launched 1 = true).
  { apply loop_condition_true. split.
    - apply isGrounded_false. right. simpl. lra.
    - unfold getTime. simpl. lra. }
  rewrite Hc.
  rewrite (rk4_body_ballistic_continue launched 1 (Vec3 0 0 0) _
             (Vector4D_of 0 0 5.095 1) (Vec3 0 0 0.19)
             (perfectProjectile_zero_drag _ _ _)
             (perfectProjectile_zero_magnus _ _ _)
             (perfectProjectile_mass _ _ _)).
  - rewrite rk4_loop_unfold.
    assert (Hc' : loop_condition
              (move launched (Vector4D_of 0 0 5.095 1) (Vec3 0 0 0.19)) 1 = false).
    { apply loop_condition_false. right. unfold getTime. simpl. lra. }
    rewrite Hc'. reflexivity.
  - unfold GRAVITY. simpl. lra.
  - unfold GRAVITY. apply Vector4D_of_eq; simpl; lra.
  - unfold GRAVITY. apply Vec3_eq; simpl; lra.
Qed.

(** C5 as stated fails: [launched] starts at z = 0, yet the run integrates a
    step, records two samples and ends in flight above the ground. *)
Lemma ground_start_upward_counterexample :
  z (xyz (position launched)) <= 0 /\
  exists proj' trajectory,
    rk4Simulation 1 launched 1 (Vec3 0 0 0) 1 = Some (proj', trajectory) /\
    points trajectory = [Vector4D_of 0 0 0 0; Vector4D_of 0 0 5.095 1] /\
    getFinalPoint trajectory <> getPosition launched /\
    isGrounded proj' = false /\
    length (loop_heads 1 launched 1 (Vec3 0 0 0) 1) = 2%nat.
Proof.
  split; [simpl; lra|].
  eexists _, _. split; [apply (launched_run 0)|].
  split; [reflexivity|]. split; [|split].
  - unfold getFinalPoint, getPosition. simpl. intros H.
    apply (f_equal t) in H. simpl in H. lra.
  - apply isGrounded_false. left. simpl. lra.
  - pose proof (launched_run 0) as H. apply rk4Simulation_points in H.
    apply (f_equal (@length _)) in H. rewrite length_map in H.
    rewrite <- H. reflexivity.
Qed.

(** The run of [thrown] with time step 1 and max time 10: the first step
    takes the height below 0, and the loop is left at the [break]. *)
Lemma thrown_run (fuel : nat) :
  rk4Simulation (S fuel) thrown 1 (Vec3 0 0 0) 10 =
  Some (move thrown (Vector4D_of 1 0 0 1) (Vec3 0 0 0),
        mkTrajectory [Vector4D_of 0 0 1 0]).
Proof.
  unfold rk4Simulation. rewrite rk4_loop_unfold.
  assert (Hc : loop_condition thrown 10 = true).
  { apply loop_condition_true. split.
    - apply isGrounded_false. left. simpl. lra.
    - unfold getTime. simpl. lra. }
  rewrite Hc.
  rewrite (rk4_body_ballistic_break thrown 1 (Vec3 0 0 0) _
             (Vector4D_of 1 0 0 1)
             (perfectProjectile_zero_drag _ _ _)
             (perfectProjectile_zero_magnus _ _ _)
             (perfectProjectile_mass _ _ _)).
  - reflexivity.
  - unfold GRAVITY. simpl. lra.
  - apply Vector4D_of_eq; simpl; lra.
Qed.

(** C1 on the code: [thrown], one metre above the ground, run with time step
    1 and max time 10.  The first step drives z to -3.905; the projectile is
    moved to the clamped state (1, 0, 0) at time 1 with zero velocity, and
    the loop is left before [addPoint]: the returned trajectory holds the
    initial sample alone.  Its final sample is at height 1 and time 0: it is
    not the clamped state, which is absent from the trajectory, and it is not
    a state at the stop-time cutoff. *)
Theorem ground_impact_not_recorded (fuel : nat) :
  let clamped := Vector4D_of 1 0 0 1 in
  let trajectory := mkTrajectory [Vector4D_of 0 0 1 0] in
  rk4Simulation (S fuel) thrown 1 (Vec3 0 0 0) 10 =
    Some (move thrown clamped (Vec3 0 0 0), trajectory) /\
  z (xyz (fst (rk4_update thrown 1 (Vec3 0 0 0)))) < 0 /\
  getFinalPoint trajectory = Vector4D_of 0 0 1 0 /\
  getFinalPoint trajectory <> clamped /\
  ~ In clamped (points trajectory) /\
  t (getFinalPoint trajectory) < 10.
Proof.
  intros clamped trajectory.
  assert (Hne : Vector4D_of 0 0 1 0 <> clamped).
  { intros H. apply (f_equal t) in H. simpl in H. lra. }
  split; [apply thrown_run|]. split; [|split; [reflexivity|split; [exact Hne|split]]].
  - rewrite rk4_update_ballistic
      by (apply perfectProjectile_zero_drag || apply perfectProjectile_zero_magnus
          || apply perfectProjectile_mass).
    unfold GRAVITY. simpl. lra.
  - simpl. intros [H | []]. now apply Hne.
  - simpl. lra.
Qed.

(** ** Configuration *)

Lemma same_parameters_refl (p : Projectile) : same_parameters p p.
Proof. repeat split. Qed.

Lemma same_parameters_trans (p q r : Projectile) :
  same_parameters p q -> same_parameters q r -> same_parameters p r.
Proof.
  unfold same_parameters. intros (H1 & H2 & H3 & H4 & H5 & H6) (K1 & K2 & K3 & K4 & K5 & K6).
  repeat split; congruence.
Qed.

Lemma rk4_body_parameters (proj : Projectile) (timeStep : R) (wind : Vector3D)
    (trajectory : Trajectory) :
  same_parameters proj (exit_projectile (rk4_body proj timeStep wind trajectory)).
Proof.
  unfold rk4_body. destruct (rk4_update proj timeStep wind) as [new_pos new_vel].
  destruct (Rltb (z (xyz new_pos)) 0); repeat split.
Qed.

Lemma rk4_loop_parameters (fuel : nat) :
  forall proj timeStep wind maxTime trajectory proj' trajectory',
    rk4_loop fuel proj timeStep wind maxTime trajectory = Some (proj', trajectory') ->
    same_parameters proj proj'.
Proof.
  induction fuel as [|fuel IH]; intros proj timeStep wind maxTime trajectory proj' trajectory' H;
    rewrite rk4_loop_unfold in H; destruct (loop_condition proj maxTime);
    try discriminate; try (injection H as <- <-; apply same_parameters_refl).
  pose proof (rk4_body_parameters proj timeStep wind trajectory) as Hp.
  destruct (rk4_body proj timeStep wind trajectory) as [q tr | q tr]; simpl in Hp.
  - apply IH in H. now apply same_parameters_trans with q.
  - now injection H as <- <-.
Qed.

Lemma rk4Simulation_at_max_time (fuel : nat) (proj : Projectile) (timeStep : R)
    (wind : Vector3D) (maxTime : R) :
  maxTime <= getTime proj ->
  rk4Simulation fuel proj timeStep wind maxTime =
  Some (proj, mkTrajectory [getPosition proj]).
Proof.
  intros Ht. unfold rk4Simulation. rewrite rk4_loop_unfold.
  assert (Hc : loop_condition proj maxTime = false)
    by (apply loop_condition_false; now right).
  now rewrite Hc.
Qed.

Lemma launched_negative_mass_run :
  rk4Simulation 1 launched_negative_mass 1 (Vec3 0 0 0) 1 =
  Some (move launched_negative_mass (Vector4D_of 0 0 5.095 1) (Vec3 0 0 0.19),
        mkTrajectory [Vector4D_of 0 0 0 0; Vector4D_of 0 0 5.095 1]).
Proof.
  unfold rk4Simulation. rewrite rk4_loop_unfold.
  assert (Hc : loop_condition launched_negative_mass 1 = true).
  { apply loop_condition_true. split.
    - apply isGrounded_false. right. simpl. lra.
    - unfold getTime. simpl. lra. }
  rewrite Hc.
  rewrite (rk4_body_ballistic_continue launched_negative_mass 1 (Vec3 0 0 0) _
             (Vector4D_of 0 0 5.095 1) (Vec3 0 0 0.19)).
  - rewrite rk4_loop_unfold.
    assert (Hc' : loop_condition
              (move launched_negative_mass (Vector4D_of 0 0 5.095 1) (Vec3 0 0 0.19)) 1
              = false).
    { apply loop_condition_false. right. unfold getTime. simpl. lra. }
    rewrite Hc'. reflexivity.
  - left. simpl. lra.
  - left. simpl. lra.
  - simpl. lra.
  - unfold GRAVITY. simpl. lra.
  - unfold GRAVITY. apply Vector4D_of_eq; simpl; lra.
  - unfold GRAVITY. apply Vec3_eq; simpl; lra.
Qed.

Lemma launched_backwards_run :
  rk4Simulation 1 launched (-1) (Vec3 0 0 0) 1 =
  Some (move launched (Vector4D_of 0 0 0 (-1)) (Vec3 0 0 0),
        mkTrajectory [Vector4D_of 0 0 0 0]).
Proof.
  unfold rk4Simulation. rewrite rk4_loop_unfold.
  assert (Hc : loop_condition launched 1 = true).
  { apply loop_condition_true. split.
    - apply isGrounded_false. right. simpl. lra.
    - unfold getTime. simpl. lra. }
  rewrite Hc.
  rewrite (rk4_body_ballistic_break launched (-1) (Vec3 0 0 0) _
             (Vector4D_of 0 0 0 (-1))
             (perfectProjectile_zero_drag _ _ _)
             (perfectProjectile_zero_magnus _ _ _)
             (perfectProjectile_mass _ _ _)).
  - reflexivity.
  - unfold GRAVITY. simpl. lra.
  - apply Vector4D_of_eq; simpl; lra.
Qed.

(** C2 as stated fails: three calls, each with one invalid parameter (the
    mass -1, the time step -1, the max time 0), return a trajectory; none is
    rejected. *)
Lemma invalid_configuration_accepted :
  (invalid_configuration launched_negative_mass 1 1 /\
   mass launched_negative_mass = -1 /\
   rk4Simulation 1 launched_negative_mass 1 (Vec3 0 0 0) 1 =
   Some (move launched_negative_mass (Vector4D_of 0 0 5.095 1) (Vec3 0 0 0.19),
         mkTrajectory [Vector4D_of 0 0 0 0; Vector4D_of 0 0 5.095 1])) /\
  (invalid_configuration launched (-1) 1 /\
   rk4Simulation 1 launched (-1) (Vec3 0 0 0) 1 =
   Some (move launched (Vector4D_of 0 0 0 (-1)) (Vec3 0 0 0),
         mkTrajectory [Vector4D_of 0 0 0 0])) /\
  (invalid_configuration valadationWithoutAirResistance 0.001 0 /\
   rk4Simulation 0 valadationWithoutAirResistance 0.001 (Vec3 0 0 0) 0 =
   Some (valadationWithoutAirResistance, mkTrajectory [Vector4D_of 0 0 10 0])).
Proof.
  split; [|split].
  - split; [left; simpl; lra|]. split; [reflexivity|].
    apply launched_negative_mass_run.
  - split; [right; left; lra|]. apply launched_backwards_run.
  - split; [right; right; lra|].
    apply rk4Simulation_at_max_time. unfold getTime. simpl. lra.
Qed.

(** C2, as the code has it: nothing is validated and nothing is replaced.
    The constructor stores the mass and the other arguments as they are
    given, with [S = SOverM * mass]; a call whose max time is not above the
    projectile's time (any max time <= 0 at launch time 0) returns the
    projectile unchanged and the trajectory of the initial sample alone; and
    a call that returns leaves the mass, radius, drag coefficient, air
    density, spin and [S] of the projectile as they were supplied. *)
Theorem no_configuration_validation (fuel : nat) (proj : Projectile)
    (timeStep : R) (wind : Vector3D) (maxTime : R) :
  (forall pos vel omega m r rho SOverM cd,
     Projectile_new pos vel omega m r rho SOverM cd =
     mkProjectile pos vel omega m r cd rho (SOverM * m)) /\
  (maxTime <= getTime proj ->
   rk4Simulation fuel proj timeStep wind maxTime =
   Some (proj, mkTrajectory [getPosition proj])) /\
  (forall proj' trajectory,
     rk4Simulation fuel proj timeStep wind maxTime = Some (proj', trajectory) ->
     same_parameters proj proj').
Proof.
  split; [reflexivity|]. split.
  - apply rk4Simulation_at_max_time.
  - intros proj' trajectory H. unfold rk4Simulation in H.
    now apply rk4_loop_parameters in H.
Qed.

Lemma no_configuration_validation_witness :
  0 <= getTime valadationWithoutAirResistance /\
  rk4Simulation 0 valadationWithoutAirResistance 0.001 (Vec3 0 0 0) 0 =
    Some (valadationWithoutAirResistance,
          mkTrajectory [getPosition valadationWithoutAirResistance]) /\
  same_parameters launched_negative_mass
    (move launched_negative_mass (Vector4D_of 0 0 5.095 1) (Vec3 0 0 0.19)).
Proof.
  assert (Ht : 0 <= getTime valadationWithoutAirResistance)
    by (unfold getTime; simpl; lra).
  split; [exact Ht|]. split.
  - exact (proj1 (proj2
      (no_configuration_validation 0 valadationWithoutAirResistance 0.001
         (Vec3 0 0 0) 0)) Ht).
  - exact (proj2 (proj2
      (no_configuration_validation 1 launched_negative_mass 1 (Vec3 0 0 0) 1))
      _ _ launched_negative_mass_run).
Defined.

(** ** Invariants of the loop *)

Lemma rk4_body_continue (proj proj' : Projectile) (timeStep : R) (wind : Vector3D)
    (trajectory trajectory' : Trajectory) :
  rk4_body proj timeStep wind trajectory = Continue proj' trajectory' ->
  proj' = move proj (fst (rk4_update proj timeStep wind))
                    (snd (rk4_update proj timeStep wind)) /\
  trajectory' = addPoint trajectory (getPosition proj') /\
  0 <= z (xyz (position proj')) /\
  getTime proj' = getTime proj + timeStep.
Proof.
  intros H.
  pose proof (rk4_body_time proj timeStep wind trajectory) as Ht.
  rewrite H in Ht. simpl in Ht.
  unfold rk4_body in H. destruct (rk4_update proj timeStep wind) as [new_pos new_vel].
  destruct (Rltb (z (xyz new_pos)) 0) eqn:Hz; [discriminate|].
  injection H as <- <-. apply Rltb_false in Hz. simpl. auto.
Qed.

(** A property of the projectile that the supplied projectile has and every
    recorded iteration keeps holds at every loop head. *)
Lemma loop_heads_Forall (P : Projectile -> Prop) (timeStep : R) (wind : Vector3D)
    (maxTime : R) :
  (forall q q' tr tr',
     P q -> loop_condition q maxTime = true ->
     rk4_body q timeStep wind tr = Continue q' tr' -> P q') ->
  forall fuel proj, P proj -> Forall P (loop_heads fuel proj timeStep wind maxTime).
Proof.
  intros Hstep. induction fuel as [|fuel IH]; intros proj HP;
    rewrite loop_heads_unfold; constructor; auto;
    destruct (loop_condition proj maxTime) eqn:Hc; auto.
  destruct (rk4_body proj timeStep wind Trajectory_empty) as [q tr | q tr] eqn:Hb; auto.
  apply IH. exact (Hstep proj q _ _ HP Hc Hb).
Qed.

(** Every loop head but the last passed the loop condition. *)
Lemma loop_heads_before_last (timeStep : R) (wind : Vector3D) (maxTime : R) :
  forall fuel proj,
    Forall (fun q => loop_condition q maxTime = true)
           (removelast (loop_heads fuel proj timeStep wind maxTime)).
Proof.
  induction fuel as [|fuel IH]; intros proj; rewrite loop_heads_unfold;
    destruct (loop_condition proj maxTime) eqn:Hc; simpl; auto.
  destruct (rk4_body proj timeStep wind Trajectory_empty) as [q tr | q tr]; simpl; auto.
  specialize (IH q). rewrite loop_heads_unfold in IH |- *.
  constructor; assumption.
Qed.

Lemma loop_heads_times (timeStep : R) (wind : Vector3D) (maxTime : R) :
  0 < timeStep ->
  forall fuel proj,
    Sorted Rlt (map getTime (loop_heads fuel proj timeStep wind maxTime)).
Proof.
  intros Hh. induction fuel as [|fuel IH]; intros proj; rewrite loop_heads_unfold;
    destruct (loop_condition proj maxTime); simpl; auto.
  destruct (rk4_body proj timeStep wind Trajectory_empty) as [q tr | q tr] eqn:Hb;
    simpl; auto.
  constructor; [apply IH|].
  rewrite loop_heads_unfold. simpl. constructor.
  apply rk4_body_continue in Hb. lra.
Qed.

Lemma StronglySorted_Rlt_Rle (l : list R) :
  StronglySorted Rlt l -> StronglySorted Rle l.
Proof.
  induction 1 as [|a l Hs IH Hall]; constructor; auto.
  eapply Forall_impl; [|exact Hall]. intros b Hb. lra.
Qed.

(** C6: in a run with a positive time step that returns, the times of the
    recorded samples increase strictly in insertion order, so they never
    decrease, and the first sample is the position and time of the supplied
    projectile. *)
Theorem trajectory_times_increase (fuel : nat) (proj : Projectile) (timeStep : R)
    (wind : Vector3D) (maxTime : R) (proj' : Projectile) (trajectory : Trajectory) :
  0 < timeStep ->
  rk4Simulation fuel proj timeStep wind maxTime = Some (proj', trajectory) ->
  StronglySorted Rlt (map t (points trajectory)) /\
  StronglySorted Rle (map t (points trajectory)) /\
  hd_error (points trajectory) = Some (getPosition proj).
Proof.
  intros Hh Hrun. apply rk4Simulation_points in Hrun.
  assert (Hs : StronglySorted Rlt (map t (points trajectory))).
  { rewrite Hrun, map_map.
    apply Sorted_StronglySorted; [exact Rlt_trans|].
    now apply loop_heads_times. }
  split; [exact Hs|]. split; [now apply StronglySorted_Rlt_Rle|].
  rewrite Hrun, loop_heads_unfold. reflexivity.
Qed.

Lemma trajectory_times_increase_witness :
  0 < 1 /\
  StronglySorted Rlt
    (map t (points (mkTrajectory [Vector4D_of 0 0 0 0; Vector4D_of 0 0 5.095 1]))) /\
  hd_error (points (mkTrajectory [Vector4D_of 0 0 0 0; Vector4D_of 0 0 5.095 1])) =
    Some (getPosition launched).
Proof.
  assert (Hh : 0 < 1) by lra.
  split; [exact Hh|].
  pose proof (trajectory_times_increase 1 launched 1 (Vec3 0 0 0) 1 _ _ Hh
                (launched_run 0)) as H.
  exact (conj (proj1 H) (proj2 (proj2 H))).
Defined.

(** ** Horizontal velocity without drag and Magnus force *)

Lemma same_parameters_ballistic (p q : Projectile) :
  same_parameters p q ->
  zero_drag p -> zero_magnus p -> mass p <> 0 ->
  zero_drag q /\ zero_magnus q /\ mass q <> 0.
Proof.
  unfold same_parameters, zero_drag, zero_magnus.
  intros (H1 & H2 & H3 & H4 & H5 & H6). rewrite H1, H2, H4, H5, H6. tauto.
Qed.

(** C8: when the projectile has no drag (drag coefficient 0 or air density
    0), no Magnus coupling ([S] = 0 or spin zero) and a mass that is not 0,
    every RK4 update of the run leaves the x and y components of the velocity
    as they are, and at every recorded sample the projectile has the x and y
    velocity of the supplied projectile.  The recorded samples are the
    positions of the loop heads. *)
Theorem horizontal_velocity_invariant (fuel : nat) (proj : Projectile)
    (timeStep : R) (wind : Vector3D) (maxTime : R) (proj' : Projectile)
    (trajectory : Trajectory) :
  zero_drag proj -> zero_magnus proj -> mass proj <> 0 ->
  rk4Simulation fuel proj timeStep wind maxTime = Some (proj', trajectory) ->
  points trajectory = map getPosition (loop_heads fuel proj timeStep wind maxTime) /\
  Forall (fun q =>
            (x (velocity q) = x (velocity proj) /\
             y (velocity q) = y (velocity proj)) /\
            (x (snd (rk4_update q timeStep wind)) = x (velocity q) /\
             y (snd (rk4_update q timeStep wind)) = y (velocity q)))
         (loop_heads fuel proj timeStep wind maxTime).
Proof.
  intros Hd Hm Hmass Hrun. split; [now apply rk4Simulation_points in Hrun|].
  assert (Hinv : Forall (fun q => same_parameters proj q /\
                                  x (velocity q) = x (velocity proj) /\
                                  y (velocity q) = y (velocity proj))
                        (loop_heads fuel proj timeStep wind maxTime)).
  { apply loop_heads_Forall.
    - intros q q' tr tr' (Hp & Hx & Hy) _ Hb.
      destruct (same_parameters_ballistic proj q Hp Hd Hm Hmass) as (Hd' & Hm' & Hmass').
      pose proof (rk4_body_parameters q timeStep wind tr) as Hp'.
      rewrite Hb in Hp'. simpl in Hp'.
      apply rk4_body_continue in Hb. destruct Hb as (-> & _).
      rewrite rk4_update_ballistic by assumption. simpl.
      split; [now apply same_parameters_trans with q|]. now split.
    - split; [apply same_parameters_refl|]. now split. }
  eapply Forall_impl; [|exact Hinv].
  intros q (Hp & Hx & Hy).
  destruct (same_parameters_ballistic proj q Hp Hd Hm Hmass) as (Hd' & Hm' & Hmass').
  rewrite rk4_update_ballistic by assumption. simpl. auto.
Qed.

Lemma horizontal_velocity_invariant_witness :
  zero_drag launched /\ zero_magnus launched /\
  mass launched <> 0 /\
  Forall (fun q =>
            (x (velocity q) = x (velocity launched) /\
             y (velocity q) = y (velocity launched)) /\
            (x (snd (rk4_update q 1 (Vec3 0 0 0))) = x (velocity q) /\
             y (snd (rk4_update q 1 (Vec3 0 0 0))) = y (velocity q)))
         (loop_heads 1 launched 1 (Vec3 0 0 0) 1).
Proof.
  assert (Hd : zero_drag launched) by (left; simpl; lra).
  assert (Hm : zero_magnus launched) by (left; simpl; lra).
  assert (Hmass : mass launched <> 0) by (simpl; lra).
  split; [exact Hd|]. split; [exact Hm|]. split; [exact Hmass|].
  exact (proj2 (horizontal_velocity_invariant 1 launched 1 (Vec3 0 0 0) 1
                  _ _ Hd Hm Hmass (launched_run 0))).
Defined.

(** ** Termination *)

Lemma steps_to_reach (a h : R) : 0 < h -> exists n : nat, a <= INR n * h.
Proof.
  intros Hh. destruct (archimed (a / h)) as [Hup _].
  exists (Z.to_nat (up (a / h))).
  assert (Ha : a = a / h * h) by (field; lra).
  destruct (Z_le_gt_dec 0 (up (a / h))) as [Hpos | Hneg].
  - rewrite INR_IZR_INZ, Z2Nat.id by exact Hpos. nra.
  - assert (Hz : IZR (up (a / h)) <= 0) by (apply IZR_le; lia).
    pose proof (pos_INR (Z.to_nat (up (a / h)))). nra.
Qed.

(** With a positive time step, a budget of [n] iterations is enough as soon
    as [n] steps take the time to the max time. *)
Lemma rk4_loop_returns (timeStep : R) (wind : Vector3D) (maxTime : R) :
  0 < timeStep ->
  forall n proj trajectory,
    maxTime <= getTime proj + INR n * timeStep ->
    exists proj' trajectory',
      rk4_loop n proj timeStep wind maxTime trajectory = Some (proj', trajectory') /\
      (isGrounded proj' = true \/ maxTime <= getTime proj').
Proof.
  intros Hh. induction n as [|n IH]; intros proj trajectory Hn;
    rewrite rk4_loop_unfold; destruct (loop_condition proj maxTime) eqn:Hc.
  - apply loop_condition_true in Hc. simpl in Hn. lra.
  - exists proj, trajectory. split; [reflexivity|]. now apply loop_condition_false.
  - destruct (rk4_body proj timeStep wind trajectory) as [q tr | q tr] eqn:Hb.
    + apply IH. apply rk4_body_continue in Hb. destruct Hb as (_ & _ & _ & Ht).
      rewrite S_INR in Hn. lra.
    + exists q, tr. split; [reflexivity|].
      left. now apply rk4_body_break_grounded in Hb.
  - exists proj, trajectory. split; [reflexivity|]. now apply loop_condition_false.
Qed.



(** * Further properties of the code *)

(** ** Vector3D arithmetic *)




(** [operator*] distributes over [operator+] and composes by the product of
    the scalars. *)
Lemma Vector3D_mul_distributes (a b : Vector3D) (c d : R) :
  (a +v b) *s c = a *s c +v b *s c /\
  a *s (c + d) = a *s c +v a *s d /\
  a *s c *s d = a *s (c * d).
Proof.
  repeat split; apply Vector3D_eq; simpl; ring.
Qed.

Lemma magnitude_dot (a : Vector3D) : magnitude a * magnitude a = dot a a.
Proof. apply magnitude_square. Qed.

Lemma lagrange_identity (a b : Vector3D) :
  dot (cross a b) (cross a b) = dot a a * dot b b - dot a b * dot a b.
Proof. unfold dot, cross; simpl; ring. Qed.

Lemma le_of_squares (u v : R) : 0 <= v -> u * u <= v * v -> u <= v.
Proof. intros Hv H. destruct (Rle_lt_dec u v) as [|Hlt]; [assumption|nra]. Qed.

Lemma cauchy_schwarz (a b : Vector3D) :
  dot a b <= magnitude a * magnitude b /\
  - (magnitude a * magnitude b) <= dot a b.
Proof.
  pose proof (magnitude_nonneg a) as Ha. pose proof (magnitude_nonneg b) as Hb.
  pose proof (magnitude_dot a) as Hsa. pose proof (magnitude_dot b) as Hsb.
  pose proof (lagrange_identity a b) as HL.
  assert (Hc : 0 <= dot (cross a b) (cross a b)) by (unfold dot; nra).
  assert (Hp : 0 <= magnitude a * magnitude b) by nra.
  assert (Hsq : dot a b * dot a b <= magnitude a * magnitude b * (magnitude a * magnitude b)).
  { replace (magnitude a * magnitude b * (magnitude a * magnitude b))
      with (dot a a * dot b b) by (rewrite <- Hsa, <- Hsb; ring).
    lra. }
  split.
  - apply le_of_squares; assumption.
  - assert (- dot a b <= magnitude a * magnitude b); [|lra].
    apply le_of_squares; [assumption|nra].
Qed.




(** ** Vector4D arithmetic *)

Lemma Vector4D_eq (a b : Vector4D) : xyz a = xyz b -> t a = t b -> a = b.
Proof. destruct a, b; simpl; intros; subst; reflexivity. Qed.






(** ** Projectile setters *)

(** X9: [setAll] gives the projectile that the constructor builds from the
    same arguments, whatever the projectile was before, and so does the
    chain of single setters when [setMass] comes before [setS].  [setS]
    multiplies by the mass of the moment and [setMass] leaves [S] as it is:
    after [setS] then [setMass], [S] is still [SOverM] times the old mass, so
    it differs from [SOverM] times the new mass whenever [SOverM] is not 0
    and the mass changed. *)
Theorem setAll_is_constructor (p : Projectile) (pos : Vector4D)
    (vel spinVec : Vector3D) (m r density SOverM dragCoeff : R) :
  setAll p pos vel spinVec m r density SOverM dragCoeff =
    Projectile_new pos vel spinVec m r density SOverM dragCoeff /\
  setS (setMass (setDragCoefficient (setAirDensity (setRadius (setSpin
    (setVelocity (setPosition p pos) vel) spinVec) r) density) dragCoeff) m) SOverM =
    Projectile_new pos vel spinVec m r density SOverM dragCoeff /\
  spinS (setMass (setS p SOverM) m) = SOverM * mass p /\
  (SOverM <> 0 -> m <> mass p ->
   spinS (setMass (setS p SOverM) m) <> spinS (setS (setMass p m) SOverM)).
Proof.
  split; [reflexivity|]. split; [reflexivity|]. split; [reflexivity|].
  intros Hk Hm. simpl. intros H. apply Hm. symmetry.
  apply Rmult_eq_reg_l with SOverM; assumption.
Qed.

Lemma setAll_is_constructor_witness :
  0.04 <> 0 /\ 0.0027 <> mass valadationWithoutAirResistance /\
  spinS (setMass (setS valadationWithoutAirResistance 0.04) 0.0027) <>
  spinS (setS (setMass valadationWithoutAirResistance 0.0027) 0.04).
Proof.
  assert (Hk : 0.04 <> 0) by lra.
  assert (Hm : 0.0027 <> mass valadationWithoutAirResistance) by (simpl; lra).
  split; [exact Hk|]. split; [exact Hm|].
  exact (proj2 (proj2 (proj2
    (setAll_is_constructor valadationWithoutAirResistance (Vector4D_of 0 0 0 0)
       (Vec3 0 0 0) (Vec3 0 0 0) 0.0027 0 0 0.04 0))) Hk Hm).
Defined.

(** ** Trajectory *)

(** X10: [addPoint] appends: the points recorded before stay in place, the
    count grows by one and the new point is the final point; the final point
    of an empty trajectory is the default [Vector4D], the origin at time
    0. *)
Theorem addPoint_getFinalPoint (tr : Trajectory) (point : Vector4D) :
  getPoints (addPoint tr point) = getPoints tr ++ [point] /\
  length (getPoints (addPoint tr point)) = S (length (getPoints tr)) /\
  getFinalPoint (addPoint tr point) = point /\
  (forall i, (i < length (getPoints tr))%nat ->
     nth_error (getPoints (addPoint tr point)) i = nth_error (getPoints tr) i) /\
  getFinalPoint Trajectory_empty = Vector4D_of 0 0 0 0.
Proof.
  split; [reflexivity|]. split; [|split; [|split; [|reflexivity]]].
  - unfold getPoints, addPoint; simpl. rewrite length_app. simpl. lia.
  - unfold getFinalPoint, addPoint; simpl.
    rewrite last_last. destruct (points tr); reflexivity.
  - intros i Hi. unfold getPoints, addPoint; simpl. now apply nth_error_app1.
Qed.

Lemma addPoint_getFinalPoint_witness :
  (0 < length (getPoints (addPoint Trajectory_empty (Vector4D_of 0 0 10 0))))%nat /\
  nth_error (getPoints (addPoint (addPoint Trajectory_empty (Vector4D_of 0 0 10 0))
                                 (Vector4D_of 1 1 9 1))) 0 =
  nth_error (getPoints (addPoint Trajectory_empty (Vector4D_of 0 0 10 0))) 0.
Proof.
  assert (H : (0 < length (getPoints (addPoint Trajectory_empty (Vector4D_of 0 0 10 0))))%nat)
    by (simpl; lia).
  split; [exact H|].
  exact (proj1 (proj2 (proj2 (proj2
    (addPoint_getFinalPoint (addPoint Trajectory_empty (Vector4D_of 0 0 10 0))
       (Vector4D_of 1 1 9 1)))))
    O H).
Defined.

(** ** The force model: frames and power *)

Lemma relative_velocity_shift (v w u : Vector3D) : (v +v u) -v (w +v u) = v -v w.
Proof. apply Vector3D_eq; simpl; ring. Qed.


(** X12: a projectile that moves with the air (velocity equal to the wind)
    and has a mass that is not 0 is in free fall: its acceleration is
    (0, 0, -GRAVITY), that is (0, 0, -9.81), whatever its drag coefficient, radius, spin and [S]. *)
Theorem calculateAcceleration_with_the_wind (p : Projectile) (wind : Vector3D) :
  velocity p = wind -> mass p <> 0 ->
  calculateAcceleration p wind = Vec3 0 0 (- GRAVITY).
Proof.
  intros Hv Hm. rewrite calculateAcceleration_unfold, Hv.
  assert (Hrel : wind -v wind = Vec3 0 0 0) by (apply Vector3D_eq; simpl; ring).
  rewrite Hrel, magnitude_zero_vector.
  rewrite (proj2 (Rltb_false 0 0)) by lra.
  apply Vector3D_eq; simpl; field; exact Hm.
Qed.

Lemma calculateAcceleration_with_the_wind_witness :
  velocity valadationWithMagnusEffect = Vec3 15 5 15 /\
  mass valadationWithMagnusEffect <> 0 /\
  calculateAcceleration valadationWithMagnusEffect (Vec3 15 5 15) = Vec3 0 0 (- GRAVITY).
Proof.
  assert (Hv : velocity valadationWithMagnusEffect = Vec3 15 5 15) by reflexivity.
  assert (Hm : mass valadationWithMagnusEffect <> 0) by (simpl; lra).
  split; [exact Hv|]. split; [exact Hm|].
  exact (calculateAcceleration_with_the_wind valadationWithMagnusEffect (Vec3 15 5 15) Hv Hm).
Defined.

Lemma dot_normalize (a : Vector3D) : dot (normalize a) a = magnitude a.
Proof.
  destruct (Rle_lt_or_eq_dec 0 (magnitude a) (magnitude_nonneg a)) as [Hpos | Hzero].
  - rewrite normalize_positive by exact Hpos. unfold dot; simpl.
    pose proof (magnitude_square a) as Hsq.
    transitivity ((x a * x a + y a * y a + z a * z a) / magnitude a).
    + field. lra.
    + rewrite <- Hsq. field. lra.
  - rewrite normalize_not_positive by lra. rewrite <- Hzero. unfold dot; simpl. ring.
Qed.



(** ** Runs of rk4Simulation: samples and final state *)

Lemma loop_heads_nth_time (timeStep : R) (wind : Vector3D) (maxTime : R) :
  forall fuel proj k q,
    nth_error (loop_heads fuel proj timeStep wind maxTime) k = Some q ->
    getTime q = getTime proj + INR k * timeStep.
Proof.
  induction fuel as [|fuel IH]; intros proj k q; rewrite loop_heads_unfold;
    destruct k as [|k]; simpl nth_error; intros H;
    try (injection H as <-; simpl; lra).
  - destruct (loop_condition proj maxTime); destruct k; discriminate.
  - destruct (loop_condition proj maxTime); [|destruct k; discriminate].
    destruct (rk4_body proj timeStep wind Trajectory_empty) as [q0 tr | q0 tr] eqn:Hb;
      [|destruct k; discriminate].
    apply IH in H. apply rk4_body_continue in Hb. destruct Hb as (_ & _ & _ & Ht).
    rewrite S_INR. lra.
Qed.

Lemma loop_heads_not_last (timeStep : R) (wind : Vector3D) (maxTime : R) :
  forall fuel proj k q,
    nth_error (loop_heads fuel proj timeStep wind maxTime) k = Some q ->
    (S k < length (loop_heads fuel proj timeStep wind maxTime))%nat ->
    loop_condition q maxTime = true.
Proof.
  induction fuel as [|fuel IH]; intros proj k q; rewrite loop_heads_unfold;
    destruct (loop_condition proj maxTime) eqn:Hc; simpl; intros H Hlen; try lia.
  destruct (rk4_body proj timeStep wind Trajectory_empty) as [q0 tr | q0 tr];
    simpl in Hlen; try lia.
  destruct k as [|k]; simpl in H.
  - now injection H as <-.
  - apply (IH q0 k q H). lia.
Qed.

Lemma loop_heads_length (timeStep : R) (wind : Vector3D) (maxTime : R) :
  forall fuel proj,
    (1 <= length (loop_heads fuel proj timeStep wind maxTime) <= S fuel)%nat.
Proof.
  induction fuel as [|fuel IH]; intros proj; rewrite loop_heads_unfold;
    destruct (loop_condition proj maxTime); simpl; try lia.
  destruct (rk4_body proj timeStep wind Trajectory_empty) as [q0 tr | q0 tr];
    simpl; try lia.
  specialize (IH q0). lia.
Qed.



Lemma loop_heads_tail_above_ground (timeStep : R) (wind : Vector3D) (maxTime : R) :
  forall fuel proj,
    Forall (fun q => 0 <= z (xyz (position q)))
           (tl (loop_heads fuel proj timeStep wind maxTime)).
Proof.
  induction fuel as [|fuel IH]; intros proj; rewrite loop_heads_unfold; simpl tl;
    destruct (loop_condition proj maxTime); auto.
  destruct (rk4_body proj timeStep wind Trajectory_empty) as [q0 tr | q0 tr] eqn:Hb; auto.
  specialize (IH q0). rewrite loop_heads_unfold in IH |- *. simpl tl in IH.
  constructor; [|exact IH].
  now apply rk4_body_continue in Hb.
Qed.



Lemma last_map {A B : Type} (f : A -> B) (l : list A) (d : A) :
  last (map f l) (f d) = f (last l d).
Proof.
  induction l as [|a l IH]; [reflexivity|].
  simpl. destruct l; [reflexivity|exact IH].
Qed.

Lemma last_indep_default {A : Type} (l : list A) (d d' : A) :
  l <> [] -> last l d = last l d'.
Proof.
  induction l as [|a l IH]; [contradiction|]. intros _.
  destruct l; [reflexivity|]. apply IH. discriminate.
Qed.

Lemma getFinalPoint_last (tr : Trajectory) :
  getFinalPoint tr = last (points tr) (Vector4D_of 0 0 0 0).
Proof. unfold getFinalPoint. destruct (points tr); reflexivity. Qed.

Lemma last_cons_nonempty {A : Type} (a : A) (l : list A) (d : A) :
  l <> [] -> last (a :: l) d = last l d.
Proof. destruct l; [contradiction|reflexivity]. Qed.

Lemma loop_heads_nonempty (fuel : nat) (proj : Projectile) (timeStep : R)
    (wind : Vector3D) (maxTime : R) :
  loop_heads fuel proj timeStep wind maxTime <> [].
Proof. rewrite loop_heads_unfold. discriminate. Qed.

(** How the loop is left, in terms of the last loop head. *)
Lemma rk4_loop_final (timeStep : R) (wind : Vector3D) (maxTime : R) :
  forall fuel proj trajectory proj' trajectory' d,
    rk4_loop fuel proj timeStep wind maxTime trajectory = Some (proj', trajectory') ->
    let q := last (loop_heads fuel proj timeStep wind maxTime) d in
    (proj' = q /\ loop_condition q maxTime = false) \/
    (loop_condition q maxTime = true /\
     exists tr, rk4_body q timeStep wind tr = Break proj' tr).
Proof.
  induction fuel as [|fuel IH]; intros proj trajectory proj' trajectory' d H;
    rewrite rk4_loop_unfold in H; rewrite loop_heads_unfold;
    destruct (loop_condition proj maxTime) eqn:Hc; try discriminate;
    try (injection H as <- <-; simpl; now left).
  rewrite rk4_body_trajectory in H.
  destruct (rk4_body proj timeStep wind Trajectory_empty) as [q0 tr | q0 tr] eqn:Hb.
  - rewrite last_cons_nonempty by apply loop_heads_nonempty.
    exact (IH _ _ _ _ d H).
  - injection H as <- <-. simpl. right. split; [exact Hc|].
    exists Trajectory_empty.
    pose proof (rk4_body_break_grounded _ _ _ _ _ _ Hb) as (_ & _ & _ & ->).
    exact Hb.
Qed.

(** X16: when a run returns, its trajectory is not empty and one of two
    holds.  Either the loop condition failed: then the final point of the
    trajectory is the position of the projectile, which is grounded or has a
    time not below the max time.  Or the ground collision check left the
    loop: then the final point has a time below the max time, and the
    projectile is one time step later than the final point, grounded at
    z = 0 with zero velocity. *)
Theorem rk4Simulation_final_state (fuel : nat) (proj : Projectile) (timeStep : R)
    (wind : Vector3D) (maxTime : R) (proj' : Projectile) (trajectory : Trajectory) :
  rk4Simulation fuel proj timeStep wind maxTime = Some (proj', trajectory) ->
  points trajectory <> [] /\
  ((getFinalPoint trajectory = getPosition proj' /\
    (isGrounded proj' = true \/ maxTime <= getTime proj')) \/
   (t (getFinalPoint trajectory) < maxTime /\
    getTime proj' = t (getFinalPoint trajectory) + timeStep /\
    z (xyz (position proj')) = 0 /\ velocity proj' = Vec3 0 0 0 /\
    isGrounded proj' = true)).
Proof.
  intros Hrun. pose proof (rk4Simulation_points _ _ _ _ _ _ _ Hrun) as Hpts.
  assert (Hne : points trajectory <> []).
  { rewrite Hpts, loop_heads_unfold. discriminate. }
  split; [exact Hne|].
  assert (Hfinal : getFinalPoint trajectory =
                   getPosition (last (loop_heads fuel proj timeStep wind maxTime) proj)).
  { rewrite getFinalPoint_last, Hpts, <- (last_map getPosition _ proj).
    apply last_indep_default. rewrite <- Hpts. exact Hne. }
  unfold rk4Simulation in Hrun.
  destruct (rk4_loop_final _ _ _ _ _ _ _ _ proj Hrun) as [(-> & Hc) | (Hc & tr & Hb)].
  - left. split; [exact Hfinal|]. now apply loop_condition_false.
  - right. rewrite Hfinal.
    set (q := last (loop_heads fuel proj timeStep wind maxTime) proj) in *.
    apply loop_condition_true in Hc. destruct Hc as [_ Hc].
    pose proof (rk4_body_time q timeStep wind tr) as Ht. rewrite Hb in Ht. simpl in Ht.
    apply rk4_body_break_grounded in Hb. destruct Hb as (Hg & Hz & Hv & _).
    unfold getTime, getPosition in *. repeat split; assumption.
Qed.

Lemma rk4Simulation_final_state_witness :
  rk4Simulation 1 thrown 1 (Vec3 0 0 0) 10 =
    Some (move thrown (Vector4D_of 1 0 0 1) (Vec3 0 0 0),
          mkTrajectory [Vector4D_of 0 0 1 0]) /\
  points (mkTrajectory [Vector4D_of 0 0 1 0]) <> [].
Proof.
  split; [exact (thrown_run 0)|].
  exact (proj1 (rk4Simulation_final_state 1 thrown 1 (Vec3 0 0 0) 10 _ _ (thrown_run 0))).
Defined.

(** ** Runs without drag and Magnus force *)

Lemma position_eta (p : Projectile) :
  position p = Vector4D_of (x (xyz (position p))) (y (xyz (position p)))
                           (z (xyz (position p))) (t (position p)).
Proof. destruct p as [[[px py pz] pt] v]. reflexivity. Qed.

Lemma loop_heads_ballistic (timeStep : R) (wind : Vector3D) (maxTime : R) :
  forall fuel proj k q,
    zero_drag proj -> zero_magnus proj -> mass proj <> 0 ->
    nth_error (loop_heads fuel proj timeStep wind maxTime) k = Some q ->
    position q = ballistic_position proj (INR k * timeStep) /\
    velocity q = ballistic_velocity proj (INR k * timeStep).
Proof.
  assert (Hzero : forall proj,
    position proj = ballistic_position proj (INR 0 * timeStep) /\
    velocity proj = ballistic_velocity proj (INR 0 * timeStep)).
  { intros proj. unfold ballistic_position, ballistic_velocity. split.
    - rewrite (position_eta proj) at 1. apply Vector4D_of_eq; simpl; unfold Rdiv; ring.
    - apply Vector3D_eq; simpl; ring. }
  induction fuel as [|fuel IH]; intros proj k q Hd Hm Hmass; rewrite loop_heads_unfold;
    destruct k as [|k]; simpl nth_error; intros H;
    try (injection H as <-; apply Hzero).
  - destruct (loop_condition proj maxTime); destruct k; discriminate.
  - destruct (loop_condition proj maxTime); [|destruct k; discriminate].
    destruct (rk4_body proj timeStep wind Trajectory_empty) as [q0 tr | q0 tr] eqn:Hb;
      [|destruct k; discriminate].
    pose proof (rk4_body_parameters proj timeStep wind Trajectory_empty) as Hp.
    rewrite Hb in Hp. simpl in Hp.
    destruct (same_parameters_ballistic proj q0 Hp Hd Hm Hmass) as (Hd' & Hm' & Hmass').
    destruct (IH q0 k q Hd' Hm' Hmass' H) as [Hpos Hvel].
    apply rk4_body_continue in Hb. destruct Hb as (Hq0 & _).
    rewrite rk4_update_ballistic in Hq0 by assumption. simpl in Hq0.
    rewrite Hpos, Hvel, Hq0. rewrite S_INR.
    unfold ballistic_position, ballistic_velocity. split.
    + apply Vector4D_of_eq; simpl; field.
    + apply Vector3D_eq; simpl; ring.
Qed.





Lemma rk4_loop_wind_ballistic (timeStep : R) (wind wind' : Vector3D) (maxTime : R) :
  forall fuel proj trajectory,
    zero_drag proj -> zero_magnus proj -> mass proj <> 0 ->
    rk4_loop fuel proj timeStep wind maxTime trajectory =
    rk4_loop fuel proj timeStep wind' maxTime trajectory.
Proof.
  induction fuel as [|fuel IH]; intros proj trajectory Hd Hm Hmass;
    rewrite !(rk4_loop_unfold _ proj); [reflexivity|].
  destruct (loop_condition proj maxTime); [|reflexivity].
  assert (Hbody : rk4_body proj timeStep wind trajectory =
                  rk4_body proj timeStep wind' trajectory).
  { unfold rk4_body. now rewrite !rk4_update_ballistic by assumption. }
  rewrite <- Hbody.
  pose proof (rk4_body_parameters proj timeStep wind trajectory) as Hp.
  destruct (rk4_body proj timeStep wind trajectory) as [q tr | q tr]; [|reflexivity].
  simpl in Hp.
  destruct (same_parameters_ballistic proj q Hp Hd Hm Hmass) as (Hd' & Hm' & Hmass').
  now apply IH.
Qed.

(** X19: the wind acts through drag and Magnus force only: without both and
    with a mass that is not 0, a run gives the same projectile and the same
    trajectory for every wind. *)
Theorem ballistic_run_ignores_wind (fuel : nat) (proj : Projectile) (timeStep : R)
    (wind wind' : Vector3D) (maxTime : R) :
  zero_drag proj -> zero_magnus proj -> mass proj <> 0 ->
  rk4Simulation fuel proj timeStep wind maxTime =
  rk4Simulation fuel proj timeStep wind' maxTime.
Proof.
  intros Hd Hm Hmass. unfold rk4Simulation. now apply rk4_loop_wind_ballistic.
Qed.

Lemma ballistic_run_ignores_wind_witness :
  zero_drag launched /\ zero_magnus launched /\ mass launched <> 0 /\
  rk4Simulation 1 launched 1 (Vec3 0 0 0) 1 = rk4Simulation 1 launched 1 (Vec3 3 (-2) 1) 1.
Proof.
  assert (Hd : zero_drag launched) by (left; simpl; lra).
  assert (Hm : zero_magnus launched) by (left; simpl; lra).
  assert (Hmass : mass launched <> 0) by (simpl; lra).
  split; [exact Hd|]. split; [exact Hm|]. split; [exact Hmass|].
  exact (ballistic_run_ignores_wind 1 launched 1 (Vec3 0 0 0) (Vec3 3 (-2) 1) 1 Hd Hm Hmass).
Defined.

(** ** Runs from a moved starting point *)

Section Shift.

Variables dx dy dt : R.

Lemma Rltb_shift (a b : R) : Rltb (a + dt) (b + dt) = Rltb a b.
Proof.
  destruct (Rltb a b) eqn:H.
  - apply Rltb_true in H. apply Rltb_true. lra.
  - apply Rltb_false in H. apply Rltb_false. lra.
Qed.

Lemma loop_condition_shift (proj : Projectile) (maxTime : R) :
  loop_condition (shifted dx dy dt proj) (maxTime + dt) = loop_condition proj maxTime.
Proof.
  unfold loop_condition, getTime. simpl. now rewrite Rltb_shift.
Qed.

Lemma rk4_update_shift (proj : Projectile) (timeStep : R) (wind : Vector3D) :
  rk4_update (shifted dx dy dt proj) timeStep wind =
  (shift dx dy dt (fst (rk4_update proj timeStep wind)),
   snd (rk4_update proj timeStep wind)).
Proof.
  assert (Hacc : forall pos v,
    calculateAcceleration (setVelocity (setPosition proj pos) v) wind =
    calculateAcceleration (setVelocity proj v) wind) by reflexivity.
  assert (Hacc0 : forall pos,
    calculateAcceleration (setPosition proj pos) wind =
    calculateAcceleration proj wind) by reflexivity.
  unfold rk4_update, shifted, getPosition, getVelocity. cbv zeta.
  rewrite !setVelocity_twice.
  change (velocity (setPosition proj (shift dx dy dt (position proj))))
    with (velocity proj).
  rewrite !Hacc, Hacc0.
  cbn [fst snd].
  apply f_equal2; [|reflexivity].
  unfold shift. cbn [position setPosition xyz t x y z Vector4D_of].
  apply Vector4D_of_eq; ring.
Qed.

Lemma rk4_body_shift (proj : Projectile) (timeStep : R) (wind : Vector3D)
    (trajectory : Trajectory) :
  rk4_body (shifted dx dy dt proj) timeStep wind (shift_trajectory dx dy dt trajectory) =
  match rk4_body proj timeStep wind trajectory with
  | Continue q tr => Continue (shifted dx dy dt q) (shift_trajectory dx dy dt tr)
  | Break q tr => Break (shifted dx dy dt q) (shift_trajectory dx dy dt tr)
  end.
Proof.
  unfold rk4_body. rewrite rk4_update_shift.
  destruct (rk4_update proj timeStep wind) as [new_pos new_vel]. cbn [fst snd].
  change (z (xyz (shift dx dy dt new_pos))) with (z (xyz new_pos)).
  destruct (Rltb (z (xyz new_pos)) 0); [reflexivity|].
  unfold shift_trajectory, addPoint, shifted, getPosition. simpl.
  now rewrite map_app.
Qed.

Lemma rk4_loop_shift (timeStep : R) (wind : Vector3D) (maxTime : R) :
  forall fuel proj trajectory,
    rk4_loop fuel (shifted dx dy dt proj) timeStep wind (maxTime + dt)
             (shift_trajectory dx dy dt trajectory) =
    option_map (fun r => (shifted dx dy dt (fst r), shift_trajectory dx dy dt (snd r)))
               (rk4_loop fuel proj timeStep wind maxTime trajectory).
Proof.
  induction fuel as [|fuel IH]; intros proj trajectory;
    rewrite (rk4_loop_unfold _ (shifted dx dy dt proj)), (rk4_loop_unfold _ proj),
      loop_condition_shift;
    destruct (loop_condition proj maxTime); try reflexivity.
  rewrite rk4_body_shift.
  destruct (rk4_body proj timeStep wind trajectory) as [q tr | q tr]; [|reflexivity].
  apply IH.
Qed.


End Shift.

(** ** The generic integrator of Project 2 *)

Module OscillationsFacts.

Import Oscillations.

Section Integrator.

Variable derivatives : state_type -> state_type -> R -> state_type.
Variable stopCondition : state_type -> bool.
Variable timeStep : R.

Lemma rk4_step_length (state : state_type) (b : Buffers) :
  length (fst (rk4_step derivatives timeStep state b)) = length state.
Proof. unfold rk4_step. simpl. now rewrite length_map, length_seq. Qed.

Lemma rk4_while_unfold (fuel : nat) (state : state_type) (b : Buffers)
    (trajectory : list state_type) :
  rk4_while derivatives stopCondition timeStep fuel state b trajectory =
  if stopCondition state then
    match fuel with
    | O => None
    | S fuel' =>
        rk4_while derivatives stopCondition timeStep fuel'
          (fst (rk4_step derivatives timeStep state b))
          (snd (rk4_step derivatives timeStep state b))
          (trajectory ++ [fst (rk4_step derivatives timeStep state b)])
    end
  else Some (state, trajectory).
Proof. destruct fuel; reflexivity. Qed.

Lemma rk4_while_shape (n : nat) :
  forall fuel state b pre state' trajectory,
    Forall (fun s => length s = n) (pre ++ [state]) ->
    Forall (fun s => stopCondition s = true) pre ->
    rk4_while derivatives stopCondition timeStep fuel state b (pre ++ [state])
      = Some (state', trajectory) ->
    (exists rest, trajectory = pre ++ state :: rest) /\
    last trajectory state = state' /\
    stopCondition state' = false /\
    Forall (fun s => length s = n) trajectory /\
    Forall (fun s => stopCondition s = true) (removelast trajectory).
Proof.
  induction fuel as [|fuel IH]; intros state b pre state' trajectory Hn Hstop H;
    rewrite rk4_while_unfold in H; destruct (stopCondition state) eqn:Hc;
    try discriminate.
  - injection H as <- <-. split; [now exists []|].
    rewrite last_last, removelast_last. auto.
  - assert (Hlen : length state = n).
    { apply Forall_app in Hn. destruct Hn as [_ Hn]. now inversion Hn. }
    apply IH in H.
    + destruct H as ((rest & ->) & Hlast & Hfalse & Hsize & Htrue).
      split; [|split; [|auto]].
      * exists (fst (rk4_step derivatives timeStep state b) :: rest).
        now rewrite <- app_assoc.
      * rewrite <- Hlast. apply last_indep_default.
        destruct pre; discriminate.
    + apply Forall_app. split; [exact Hn|].
      constructor; [|constructor]. now rewrite rk4_step_length.
    + apply Forall_app. split; [exact Hstop|]. now constructor.
  - injection H as <- <-. split; [now exists []|].
    rewrite last_last, removelast_last. auto.
Qed.


Lemma rk4_step_sized (state : state_type) (b : Buffers) :
  (forall s k time, length (derivatives s k time) = length k) ->
  sized (length state) b ->
  sized (length state) (snd (rk4_step derivatives timeStep state b)).
Proof.
  intros Hkeep (H1 & H2 & H3 & H4). unfold rk4_step, sized. cbn [snd k1 k2 k3 k4].
  now rewrite !Hkeep.
Qed.

Lemma rk4_step_clock (state : state_type) (b : Buffers) :
  (forall s k time, length (derivatives s k time) = length k) ->
  (forall s k time, k <> [] -> nth 0 (derivatives s k time) 0 = 1) ->
  state <> [] ->
  sized (length state) b ->
  nth 0 (fst (rk4_step derivatives timeStep state b)) 0 = nth 0 state 0 + timeStep.
Proof.
  intros Hkeep Hclock Hne (H1 & H2 & H3 & H4). unfold rk4_step. cbn [fst].
  destruct state as [|s0 state]; [contradiction|].
  assert (Hb : forall k : state_type, length k = length (s0 :: state) -> k <> []).
  { intros k Hk ->. discriminate. }
  cbn [length seq map nth]. rewrite !Hclock by auto. lra.
Qed.

End Integrator.

Lemma rk4_while_clock_returns (derivatives : state_type -> state_type -> R -> state_type)
    (timeStep limit : R) :
  0 < timeStep ->
  (forall s k time, length (derivatives s k time) = length k) ->
  (forall s k time, k <> [] -> nth 0 (derivatives s k time) 0 = 1) ->
  forall n state b trajectory,
    state <> [] ->
    sized (length state) b ->
    limit <= nth 0 state 0 + INR n * timeStep ->
    exists state' trajectory',
      rk4_while derivatives (fun s => Rltb (nth 0 s 0) limit) timeStep n state b trajectory
        = Some (state', trajectory') /\
      limit <= nth 0 state' 0.
Proof.
  intros Hh Hkeep Hclock. induction n as [|n IH]; intros state b trajectory Hne Hb Hn;
    rewrite rk4_while_unfold; destruct (Rltb (nth 0 state 0) limit) eqn:Hc.
  - apply Rltb_true in Hc. simpl in Hn. lra.
  - apply Rltb_false in Hc. now exists state, trajectory.
  - apply IH.
    + intros E. apply (f_equal (@length _)) in E.
      rewrite rk4_step_length in E. destruct state; [contradiction|discriminate].
    + rewrite rk4_step_length. now apply rk4_step_sized.
    + rewrite rk4_step_clock by assumption. rewrite S_INR in Hn. lra.
  - apply Rltb_false in Hc. now exists state, trajectory.
Qed.


Lemma sample_derivatives_length (s k : state_type) (time : R) :
  length (sample_derivatives s k time) = length k.
Proof. destruct k; simpl; [reflexivity|]. now rewrite length_map. Qed.

Lemma sample_derivatives_clock (s k : state_type) (time : R) :
  k <> [] -> nth 0 (sample_derivatives s k time) 0 = 1.
Proof. destruct k; [contradiction|reflexivity]. Qed.



End OscillationsFacts.

(** ** Motion across the wind, with drag *)

Lemma calculateAcceleration_y_zero (p : Projectile) (wind : Vector3D) :
  zero_magnus p -> y (velocity p) = y wind ->
  y (calculateAcceleration p wind) = 0.
Proof.
  intros Hm Hy. rewrite calculateAcceleration_unfold.
  assert (Hrel : y (velocity p -v wind) = 0) by (simpl; lra).
  assert (Hn : y (normalize (velocity p -v wind)) = 0).
  { unfold normalize. destruct (Rltb 0 (magnitude (velocity p -v wind))); [|reflexivity].
    cbn [y]. rewrite Hrel. unfold Rdiv. ring. }
  assert (Hmagnus : y (cross (spin p) (velocity p -v wind) *s spinS p) = 0).
  { destruct Hm as [Hm | Hm]; rewrite Hm; simpl; ring. }
  cbn [y Vector3D_div Vector3D_add]. rewrite Hmagnus.
  destruct (Rltb 0 (magnitude (velocity p -v wind))).
  - cbn [y Vector3D_mul]. rewrite Hn. unfold Rdiv. ring.
  - cbn [y]. unfold Rdiv. ring.
Qed.

Lemma calculateAcceleration_x_zero (p : Projectile) (wind : Vector3D) :
  zero_magnus p -> x (velocity p) = x wind ->
  x (calculateAcceleration p wind) = 0.
Proof.
  intros Hm Hx. rewrite calculateAcceleration_unfold.
  assert (Hrel : x (velocity p -v wind) = 0) by (simpl; lra).
  assert (Hn : x (normalize (velocity p -v wind)) = 0).
  { unfold normalize. destruct (Rltb 0 (magnitude (velocity p -v wind))); [|reflexivity].
    cbn [x]. rewrite Hrel. unfold Rdiv. ring. }
  assert (Hmagnus : x (cross (spin p) (velocity p -v wind) *s spinS p) = 0).
  { destruct Hm as [Hm | Hm]; rewrite Hm; simpl; ring. }
  cbn [x Vector3D_div Vector3D_add]. rewrite Hmagnus.
  destruct (Rltb 0 (magnitude (velocity p -v wind))).
  - cbn [x Vector3D_mul]. rewrite Hn. unfold Rdiv. ring.
  - cbn [x]. unfold Rdiv. ring.
Qed.

Lemma rk4_update_y (proj : Projectile) (timeStep : R) (wind : Vector3D) :
  zero_magnus proj -> y (velocity proj) = y wind ->
  y (snd (rk4_update proj timeStep wind)) = y (velocity proj) /\
  y (xyz (fst (rk4_update proj timeStep wind))) =
    y (xyz (position proj)) + y (velocity proj) * timeStep.
Proof.
  intros Hm Hy.
  assert (Hacc : forall v, y v = y wind ->
                   y (calculateAcceleration (setVelocity proj v) wind) = 0).
  { intros v Hv. now apply calculateAcceleration_y_zero. }
  unfold rk4_update, getPosition, getVelocity. cbv zeta.
  rewrite !setVelocity_twice.
  set (v0 := velocity proj) in *.
  set (a1 := calculateAcceleration proj wind).
  assert (H1 : y a1 = 0) by (apply calculateAcceleration_y_zero; assumption).
  set (v1 := v0 +v a1 *s timeStep *s 0.5).
  assert (Hv1 : y v1 = y wind) by (subst v1; cbn [y Vector3D_add Vector3D_mul]; rewrite H1; lra).
  set (a2 := calculateAcceleration (setVelocity proj v1) wind).
  assert (H2 : y a2 = 0) by (apply Hacc; exact Hv1).
  set (v2 := v0 +v a2 *s timeStep *s 0.5).
  assert (Hv2 : y v2 = y wind) by (subst v2; cbn [y Vector3D_add Vector3D_mul]; rewrite H2; lra).
  set (a3 := calculateAcceleration (setVelocity proj v2) wind).
  assert (H3 : y a3 = 0) by (apply Hacc; exact Hv2).
  set (v3 := v0 +v a3 *s timeStep).
  assert (Hv3 : y v3 = y wind) by (subst v3; cbn [y Vector3D_add Vector3D_mul]; rewrite H3; lra).
  set (a4 := calculateAcceleration (setVelocity proj v3) wind).
  assert (H4 : y a4 = 0) by (apply Hacc; exact Hv3).
  cbn [fst snd xyz Vector4D_of y Vector3D_add Vector3D_mul Vector3D_div].
  rewrite H1, H2, H3, H4, Hv1, Hv2, Hv3, Hy. split; lra.
Qed.

Lemma rk4_update_x (proj : Projectile) (timeStep : R) (wind : Vector3D) :
  zero_magnus proj -> x (velocity proj) = x wind ->
  x (snd (rk4_update proj timeStep wind)) = x (velocity proj) /\
  x (xyz (fst (rk4_update proj timeStep wind))) =
    x (xyz (position proj)) + x (velocity proj) * timeStep.
Proof.
  intros Hm Hx.
  assert (Hacc : forall v, x v = x wind ->
                   x (calculateAcceleration (setVelocity proj v) wind) = 0).
  { intros v Hv. now apply calculateAcceleration_x_zero. }
  unfold rk4_update, getPosition, getVelocity. cbv zeta.
  rewrite !setVelocity_twice.
  set (v0 := velocity proj) in *.
  set (a1 := calculateAcceleration proj wind).
  assert (H1 : x a1 = 0) by (apply calculateAcceleration_x_zero; assumption).
  set (v1 := v0 +v a1 *s timeStep *s 0.5).
  assert (Hv1 : x v1 = x wind) by (subst v1; cbn [x Vector3D_add Vector3D_mul]; rewrite H1; lra).
  set (a2 := calculateAcceleration (setVelocity proj v1) wind).
  assert (H2 : x a2 = 0) by (apply Hacc; exact Hv1).
  set (v2 := v0 +v a2 *s timeStep *s 0.5).
  assert (Hv2 : x v2 = x wind) by (subst v2; cbn [x Vector3D_add Vector3D_mul]; rewrite H2; lra).
  set (a3 := calculateAcceleration (setVelocity proj v2) wind).
  assert (H3 : x a3 = 0) by (apply Hacc; exact Hv2).
  set (v3 := v0 +v a3 *s timeStep).
  assert (Hv3 : x v3 = x wind) by (subst v3; cbn [x Vector3D_add Vector3D_mul]; rewrite H3; lra).
  set (a4 := calculateAcceleration (setVelocity proj v3) wind).
  assert (H4 : x a4 = 0) by (apply Hacc; exact Hv3).
  cbn [fst snd xyz Vector4D_of x Vector3D_add Vector3D_mul Vector3D_div].
  rewrite H1, H2, H3, H4, Hv1, Hv2, Hv3, Hx. split; lra.
Qed.

Lemma same_parameters_zero_magnus (p q : Projectile) :
  same_parameters p q -> zero_magnus p -> zero_magnus q.
Proof.
  unfold same_parameters, zero_magnus.
  intros (H1 & _ & _ & _ & _ & H6). now rewrite H1, H6.
Qed.

Lemma loop_heads_with_the_wind (timeStep : R) (wind : Vector3D) (maxTime : R) :
  forall fuel proj k q,
    zero_magnus proj ->
    nth_error (loop_heads fuel proj timeStep wind maxTime) k = Some q ->
    (x (velocity proj) = x wind ->
     x (velocity q) = x wind /\
     x (xyz (position q)) = x (xyz (position proj)) + INR k * timeStep * x wind) /\
    (y (velocity proj) = y wind ->
     y (velocity q) = y wind /\
     y (xyz (position q)) = y (xyz (position proj)) + INR k * timeStep * y wind).
Proof.
  induction fuel as [|fuel IH]; intros proj k q Hm; rewrite loop_heads_unfold;
    destruct k as [|k]; simpl nth_error; intros H;
    try (injection H as <-; split; intros Hv; (split; [exact Hv|simpl; lra])).
  - destruct (loop_condition proj maxTime); destruct k; discriminate.
  - destruct (loop_condition proj maxTime); [|destruct k; discriminate].
    destruct (rk4_body proj timeStep wind Trajectory_empty) as [q0 tr | q0 tr] eqn:Hb;
      [|destruct k; discriminate].
    pose proof (rk4_body_parameters proj timeStep wind Trajectory_empty) as Hp.
    rewrite Hb in Hp. simpl in Hp.
    pose proof (same_parameters_zero_magnus proj q0 Hp Hm) as Hm'.
    destruct (IH q0 k q Hm' H) as [IHx IHy].
    apply rk4_body_continue in Hb. destruct Hb as (Hq0 & _).
    assert (Hvel : velocity q0 = snd (rk4_update proj timeStep wind)) by now rewrite Hq0.
    assert (Hpos : position q0 = fst (rk4_update proj timeStep wind)) by now rewrite Hq0.
    rewrite S_INR. split; intros Hv.
    + destruct (rk4_update_x proj timeStep wind Hm Hv) as [Hx1 Hx2].
      destruct IHx as [IH1 IH2]; [rewrite Hvel; lra|].
      split; [exact IH1|]. rewrite IH2, Hpos, Hx2. rewrite Hv. lra.
    + destruct (rk4_update_y proj timeStep wind Hm Hv) as [Hy1 Hy2].
      destruct IHy as [IH1 IH2]; [rewrite Hvel; lra|].
      split; [exact IH1|]. rewrite IH2, Hpos, Hy2. rewrite Hv. lra.
Qed.



(** ** Getters *)

